(** * rast-cpp-test: frame orchestration and shader contract of [main.cpp]

  A shallow embedding of [src/main.cpp] (and of the earlier revision of the
  same file, which only differs by having a single attachment and no draw
  call).  The program is a single translation unit: three thin RAII wrappers
  around the C rasterizer library, two shader callbacks, the depth-buffer
  validation helpers and [main] with its frame loop.

  Conventions of the embedding.
  - [float] is read in exact arithmetic, as a real number; rounding is not
    modelled in the values.  The glm operations the program calls are given
    by their mathematical definitions.  The one place where the control
    flow depends on a float is the assertion at the head of
    [glm::perspective], which is decided on the float the program computes
    (see [float_quotient]).
  - [std::uint32_t] sizes and counts are [N]; the packed colours, on which
    the program does bit arithmetic, are [Z] with the wrap-around of every
    conversion written out.
  - The C library behind [graphics/*.h] is an external collaborator.  Its
    calls are recorded, in order, in a trace of events; the image allocator
    additionally keeps the table of live images.
  - A C++ exception and a failed [assert] are the [Abort] outcome of a
    computation; nothing in the program catches an exception. *)

From Stdlib Require Import ZArith NArith Reals Lra Lia List String.
From stdpp Require Import gmap list.
Import ListNotations.

Local Open Scope Z_scope.

(** ** glm: vectors and column-major 4x4 matrices *)

Module glm.
Local Open Scope R_scope.

Record vec3 := mk_vec3 { x3 : R; y3 : R; z3 : R }.
Record vec4 := mk_vec4 { x4 : R; y4 : R; z4 : R; w4 : R }.

(** [glm::mat4] stores four columns; [m[c]] is column [c] and [m[c][r]]
    the entry in column [c], row [r]. *)
Record mat4 := mk_mat4 { col0 : vec4; col1 : vec4; col2 : vec4; col3 : vec4 }.

Definition vec4_get (v : vec4) (r : nat) : R :=
  match r with
  | 0%nat => x4 v | 1%nat => y4 v | 2%nat => z4 v | 3%nat => w4 v
  | _ => 0
  end.

Definition vec4_set (v : vec4) (r : nat) (a : R) : vec4 :=
  match r with
  | 0%nat => mk_vec4 a (y4 v) (z4 v) (w4 v)
  | 1%nat => mk_vec4 (x4 v) a (z4 v) (w4 v)
  | 2%nat => mk_vec4 (x4 v) (y4 v) a (w4 v)
  | 3%nat => mk_vec4 (x4 v) (y4 v) (z4 v) a
  | _ => v
  end.

Definition column (m : mat4) (c : nat) : vec4 :=
  match c with
  | 0%nat => col0 m | 1%nat => col1 m | 2%nat => col2 m | 3%nat => col3 m
  | _ => mk_vec4 0 0 0 0
  end.

Definition set_column (m : mat4) (c : nat) (v : vec4) : mat4 :=
  match c with
  | 0%nat => mk_mat4 v (col1 m) (col2 m) (col3 m)
  | 1%nat => mk_mat4 (col0 m) v (col2 m) (col3 m)
  | 2%nat => mk_mat4 (col0 m) (col1 m) v (col3 m)
  | 3%nat => mk_mat4 (col0 m) (col1 m) (col2 m) v
  | _ => m
  end.

(** [m[c][r]] read and [m[c][r] = a] write.  glm asserts that both indices
    are below 4; the program only uses constant indices in range. *)
Definition get (m : mat4) (c r : nat) : R := vec4_get (column m c) r.
Definition set (m : mat4) (c r : nat) (a : R) : mat4 :=
  set_column m c (vec4_set (column m c) r a).

(** [glm::mat4(s)]: [s] on the diagonal, zero elsewhere. *)
Definition diag (s : R) : mat4 :=
  mk_mat4 (mk_vec4 s 0 0 0) (mk_vec4 0 s 0 0) (mk_vec4 0 0 s 0) (mk_vec4 0 0 0 s).

Definition vec4_of (v : vec3) (w : R) : vec4 := mk_vec4 (x3 v) (y3 v) (z3 v) w.

Definition vec4_scale (v : vec4) (a : R) : vec4 :=
  mk_vec4 (x4 v * a) (y4 v * a) (z4 v * a) (w4 v * a).
Definition vec4_add (u v : vec4) : vec4 :=
  mk_vec4 (x4 u + x4 v) (y4 u + y4 v) (z4 u + z4 v) (w4 u + w4 v).

(** [m * v]: the linear combination of the columns of [m] by the
    components of [v]. *)
Definition mul_vec (m : mat4) (v : vec4) : vec4 :=
  vec4_add (vec4_add (vec4_add (vec4_scale (col0 m) (x4 v))
                               (vec4_scale (col1 m) (y4 v)))
                     (vec4_scale (col2 m) (z4 v)))
           (vec4_scale (col3 m) (w4 v)).

(** [a * b]: column [c] of the product is [a * b[c]]. *)
Definition mul (a b : mat4) : mat4 :=
  mk_mat4 (mul_vec a (col0 b)) (mul_vec a (col1 b))
          (mul_vec a (col2 b)) (mul_vec a (col3 b)).

Definition dot3 (u v : vec3) : R := x3 u * x3 v + y3 u * y3 v + z3 u * z3 v.
Definition cross (u v : vec3) : vec3 :=
  mk_vec3 (y3 u * z3 v - y3 v * z3 u)
          (z3 u * x3 v - z3 v * x3 u)
          (x3 u * y3 v - x3 v * y3 u).
Definition sub3 (u v : vec3) : vec3 :=
  mk_vec3 (x3 u - x3 v) (y3 u - y3 v) (z3 u - z3 v).
Definition normalize (v : vec3) : vec3 :=
  let k := / sqrt (dot3 v v) in mk_vec3 (x3 v * k) (y3 v * k) (z3 v * k).

Definition radians (degrees : R) : R := degrees * (PI / 180).

(** [glm::lookAt] (right-handed, the default). *)
Definition lookAt (eye center up : vec3) : mat4 :=
  let f := normalize (sub3 center eye) in
  let s := normalize (cross f up) in
  let u := cross s f in
  mk_mat4 (mk_vec4 (x3 s) (x3 u) (- x3 f) 0)
          (mk_vec4 (y3 s) (y3 u) (- y3 f) 0)
          (mk_vec4 (z3 s) (z3 u) (- z3 f) 0)
          (mk_vec4 (- dot3 s eye) (- dot3 u eye) (dot3 f eye) 1).

(** [glm::rotate(glm::mat4(1.f), angle, glm::vec3(0, 1, 0))]: the rotation
    about +Y in glm's right-handed convention.  The program does not call it;
    it is here to compare the rotation the program builds by hand with. *)
Definition rotate_y (angle : R) : mat4 :=
  mk_mat4 (mk_vec4 (cos angle) 0 (- sin angle) 0) (mk_vec4 0 1 0 0)
          (mk_vec4 (sin angle) 0 (cos angle) 0) (mk_vec4 0 0 0 1).

(** A [float] argument as far as [glm::perspective] depends on it: its value
    read in exact arithmetic, and the two facts about the float itself that
    the assertion of [glm::perspective] tests, whether it is NaN and whether
    it is the machine epsilon [2^-23].  A float that is NaN or an infinity
    has no value in exact arithmetic: [exact] then says nothing about it. *)
Record float32 := mk_float32 { exact : R; is_nan : bool; is_epsilon : bool }.

(** The matrix [glm::perspective] builds (right-handed, depth range -1..1,
    the default).  Its first entry is a number when [aspect] is a number
    other than zero; for the aspect of a window without width or height
    (zero, an infinity or NaN) the entry the program computes is an infinity,
    zero or NaN, which the exact reading does not follow. *)
Definition perspective_matrix (fovy aspect zNear zFar : R) : mat4 :=
  let tanHalfFovy := tan (fovy / 2) in
  mk_mat4 (mk_vec4 (1 / (aspect * tanHalfFovy)) 0 0 0)
          (mk_vec4 0 (1 / tanHalfFovy) 0 0)
          (mk_vec4 0 0 (- (zFar + zNear) / (zFar - zNear)) (-1))
          (mk_vec4 0 0 (- (2 * zFar * zNear) / (zFar - zNear)) 0).

(** [glm::perspective].  It starts with
    [assert(abs(aspect - epsilon) > 0)], which fails when [aspect] is NaN or
    equal to epsilon; [assertions] says whether [assert] is compiled in
    ([NDEBUG] is not defined).  [None] is the failed assertion. *)
Definition perspective (assertions : bool) (fovy : R) (aspect : float32)
    (zNear zFar : R) : option mat4 :=
  if assertions && (is_nan aspect || is_epsilon aspect)
  then None
  else Some (perspective_matrix fovy (exact aspect) zNear zFar).

End glm.

(** ** The C library: images, framebuffers, the window and the call trace *)

(** [graphics/image.h].  The program reads the [width] and [height] of an
    image and asks for the depth format; nothing else of an image is used. *)
Inductive image_format := IMAGE_FORMAT_COLOR | IMAGE_FORMAT_DEPTH.

Record image_t := mk_image { width : N; height : N; format : image_format }.

(** An [image_t*]: null, the window's backbuffer (owned by the presentation
    surface), or an image handed out by [image_allocate], named by the serial
    number of its allocation. *)
Inductive image_ptr :=
| nullptr
| backbuffer_ptr
| allocated_ptr (id : positive).

(** The [image_pixel] union. *)
Inductive image_pixel :=
| color (c : Z)
| depth (d : R).

(** [struct framebuffer].  [attachments] is the storage the C pointer of that
    name points at: in [main] it is the vector [attachments] itself, so a
    write to [attachments[i]] is a write to this field. *)
Record framebuffer := mk_framebuffer {
  fb_width : N;
  fb_height : N;
  attachment_count : N;
  attachments : list image_ptr
}.

(** What the presentation surface reports.  It changes only when events are
    polled. *)
Record window_t := mk_window {
  framebuffer_size : N * N;
  backbuffer : option image_t;
  close_requested : bool
}.

Inductive rasterizer_t := rasterizer_handle (flag : bool).

(** ** Data of the demo *)

Record Uniforms := mk_Uniforms { Projection : glm.mat4; View : glm.mat4 }.

Record Vertex := mk_Vertex { Position : glm.vec3 }.

Record Instance := mk_Instance { Model : glm.mat4; Color : Z }.

Record WorkingData := mk_WorkingData { wd_Color : Z }.

(** [struct shader_context]: the per-draw uniform block and the working
    data of the invocation. *)
Record shader_context := mk_shader_context {
  uniform_data : Uniforms;
  working_data : WorkingData
}.

(** One element of the [vertexData] array passed to the vertex stage: the
    current element of the buffer bound to that slot. *)
Inductive buffer_element :=
| vertex_element (v : Vertex)
| instance_element (i : Instance).

Inductive vertex_input_rate := VERTEX_INPUT_RATE_VERTEX | VERTEX_INPUT_RATE_INSTANCE.
Inductive element_type : Set := ELEMENT_TYPE_BYTE.
Inductive winding_order : Set := WINDING_ORDER_CCW.
Inductive topology_type : Set := TOPOLOGY_TYPE_TRIANGLES.

(** [sizeof] of the program's own structs is kept symbolic. *)
Inductive sized_type := Vertex_type | Instance_type | WorkingData_type.
Inductive byte_size := sizeof (t : sized_type) | times (n : nat) (s : byte_size).

Record vertex_binding := mk_vertex_binding {
  stride : byte_size;
  input_rate : vertex_input_rate
}.

Record blended_parameter := mk_blended_parameter {
  bp_count : N;
  bp_type : element_type;
  bp_offset : N
}.

Record pipeline_shader := mk_pipeline_shader {
  working_size : byte_size;
  vertex_stage : list buffer_element -> shader_context -> option (glm.vec4 * shader_context);
  fragment_stage : shader_context -> Z;
  inter_stage_parameter_count : N;
  inter_stage_parameters : list blended_parameter
}.

Record pipeline_t := mk_pipeline {
  shader : pipeline_shader;
  depth_test : bool;
  depth_write : bool;
  binding_count : N;
  pipeline_bindings : list vertex_binding;
  cull_back : bool;
  winding : winding_order;
  topology : topology_type
}.

Inductive buffer_data :=
| vertices_data (vs : list Vertex)
| instances_data (insts : list Instance).

Record vertex_buffer := mk_vertex_buffer { vb_data : buffer_data; vb_size : byte_size }.

(** [struct indexed_render_call].  The pointers of the C struct are read at
    the time of the call, so the record holds what they point at then. *)
Record indexed_render_call := mk_indexed_render_call {
  call_pipeline : pipeline_t;
  call_framebuffer : framebuffer;
  call_vertices : list vertex_buffer;
  call_uniform_data : Uniforms;
  call_indices : list Z;
  index_count : N;
  instance_count : N
}.

(** ** The world outside the program *)

(** Calls into the C library and into ImGui, in the order they are made. *)
Inductive event :=
| rasterizer_create_call (flag : bool)
| window_create_call (title : string) (w h : N)
| imgui_create_context
| window_init_imgui_call
| imgui_init_renderer_call (r : rasterizer_t)
| window_poll_call
| imgui_new_frame
| imgui_render_frame
| image_free_call (p : image_ptr)
| image_allocate_call (w h : N) (f : image_format) (result : image_ptr)
| framebuffer_clear_call (fb : framebuffer) (clearValues : list image_pixel)
| render_indexed_call (call : indexed_render_call) (targets : list (option image_t))
| imgui_render_call (fb : framebuffer)
| window_swap_buffers_call
| imgui_shutdown_renderer_call
| window_destroy_call
| imgui_destroy_context
| rasterizer_destroy_call.

Record World := mk_World {
  win : window_t;
  images : gmap positive image_t;
  next_image : positive;
  rand_draws : nat -> Z;
  rand_next : nat;
  trace : list event
}.

(** ** Computations that may throw *)

(** How a computation of the program ends when it does not return: a
    [std::runtime_error] is thrown, a null smart pointer is dereferenced, or
    an [assert] fails and aborts the process. *)
Inductive failure :=
| runtime_error (what : string)
| null_dereference
| assertion_failure.

Inductive outcome (A : Type) :=
| Ok (a : A) (w : World)
| Abort (e : failure) (w : World).
Arguments Ok {A} a w.
Arguments Abort {A} e w.

Definition M (A : Type) : Type := World -> outcome A.

Definition ret {A} (a : A) : M A := fun w => Ok a w.

Definition bind {A B} (m : M A) (k : A -> M B) : M B :=
  fun w => match m w with
           | Ok a w' => k a w'
           | Abort e w' => Abort e w'
           end.

Definition throw {A} (e : failure) : M A := fun w => Abort e w.

Declare Scope prog_scope.
Delimit Scope prog_scope with prog.
Notation "x <- m ;; k" := (bind m (fun x => k))
  (at level 100, m at next level, right associativity) : prog_scope.
Notation "m ;; k" := (bind m (fun _ => k))
  (at level 100, k at level 200, right associativity) : prog_scope.
Local Open Scope prog_scope.

Definition world_of {A} (o : outcome A) : World :=
  match o with Ok _ w => w | Abort _ w => w end.

(** The world after the calls [evs] that change nothing else. *)
Definition log (w : World) (evs : list event) : World :=
  mk_World (win w) (images w) (next_image w) (rand_draws w) (rand_next w)
           (trace w ++ evs).

Definition emit (e : event) : M unit := fun w => Ok tt (log w [e]).

Definition get_window : M window_t := fun w => Ok (win w) w.

(** Reading through an image pointer. *)
Definition deref (w : World) (p : image_ptr) : option image_t :=
  match p with
  | nullptr => None
  | backbuffer_ptr => backbuffer (win w)
  | allocated_ptr id => images w !! id
  end.

Definition load (p : image_ptr) : M image_t :=
  fun w => match deref w p with
           | Some img => Ok img w
           | None => Abort null_dereference w
           end.

(** [rand()]: the next number of the C library's sequence. *)
Definition rand : M Z :=
  fun w => Ok (rand_draws w (rand_next w))
              (mk_World (win w) (images w) (next_image w)
                        (rand_draws w) (S (rand_next w)) (trace w)).

(** Modelled from the spec: the image allocator of [graphics/image.h]
    ("allocate(width, height, format) -> handle; free(handle)").
    [image_allocate] hands out a new image of the requested size and format;
    [image_free] releases the image it is given and accepts a null pointer. *)
Definition image_allocate (w h : N) (f : image_format) : M image_ptr :=
  fun s =>
    let id := next_image s in
    Ok (allocated_ptr id)
       (mk_World (win s) (<[id := mk_image w h f]> (images s)) (Pos.succ id)
                 (rand_draws s) (rand_next s)
                 (trace s ++ [image_allocate_call w h f (allocated_ptr id)])).

Definition image_free (p : image_ptr) : M unit :=
  fun s =>
    Ok tt (mk_World (win s)
                    (match p with
                     | allocated_ptr id => delete id (images s)
                     | _ => images s
                     end)
                    (next_image s) (rand_draws s) (rand_next s)
                    (trace s ++ [image_free_call p])).

(** [window_poll]: the pending events are processed; [polled] is what the
    surface reports from then on. *)
Definition window_poll (polled : window_t) : M unit :=
  fun w => Ok tt (mk_World polled (images w) (next_image w)
                           (rand_draws w) (rand_next w)
                           (trace w ++ [window_poll_call])).

(** [framebuffer_clear] and [render_indexed] are calls into the rasterizer;
    the trace keeps their arguments, and for the draw the images its targets
    point at when it is issued. *)
Definition framebuffer_clear (r : rasterizer_t) (fb : framebuffer)
    (clearValues : list image_pixel) : M unit :=
  emit (framebuffer_clear_call fb clearValues).

Definition render_indexed (r : rasterizer_t) (call : indexed_render_call) : M unit :=
  fun w => emit (render_indexed_call call
                   (map (deref w) (attachments (call_framebuffer call)))) w.

(** ** [class Window] *)

Inductive window_handle : Set := window_ptr.

Record Window : Set := mk_Window { m_Window : window_handle }.

(** [window_create]: [created] is what the windowing library answers, the
    state of the new surface or nothing when it fails. *)
Definition window_create (title : string) (w h : N) (created : option window_t)
    : M (option window_handle) :=
  emit (window_create_call title w h) ;;
  match created with
  | Some st =>
      fun s => Ok (Some window_ptr)
                  (mk_World st (images s) (next_image s)
                            (rand_draws s) (rand_next s) (trace s))
  | None => ret None
  end.

Definition Window_Create (title : string) (w h : N) (created : option window_t)
    : M (option Window) :=
  window <- window_create title w h created ;;
  match window with
  | None => ret None
  | Some window => ret (Some (mk_Window window))
  end.

Definition Window_Poll (polled : window_t) : M unit := window_poll polled.

Definition Window_IsCloseRequested (self : Window) : M bool :=
  w <- get_window ;; ret (close_requested w).

Definition Window_SwapBuffers (self : Window) : M unit :=
  emit window_swap_buffers_call.

Definition Window_GetBackbuffer (self : Window) : M image_ptr :=
  w <- get_window ;;
  ret (match backbuffer w with Some _ => backbuffer_ptr | None => nullptr end).

Definition Window_GetFramebufferSize (self : Window) : M (N * N) :=
  w <- get_window ;; ret (framebuffer_size w).

Definition Window_InitImGui (self : Window) : M unit := emit window_init_imgui_call.

Definition Window_destroy (self : Window) : M unit := emit window_destroy_call.

(** ** [class Rasterizer] *)

Record Rasterizer := mk_Rasterizer { m_Rasterizer : rasterizer_t }.

Definition rasterizer_create (flag : bool) (created : bool) : M (option rasterizer_t) :=
  emit (rasterizer_create_call flag) ;;
  ret (if created then Some (rasterizer_handle flag) else None).

Definition Rasterizer_Create (s_IsDebug : bool) (created : bool) : M (option Rasterizer) :=
  rast <- rasterizer_create (negb s_IsDebug) created ;;
  match rast with
  | None => ret None
  | Some rast => ret (Some (mk_Rasterizer rast))
  end.

Definition Rasterizer_Get (self : Rasterizer) : rasterizer_t := m_Rasterizer self.

Definition ClearFramebuffer (self : Rasterizer) (fb : framebuffer)
    (clearValues : list image_pixel) : M unit :=
  (if negb (N.of_nat (length clearValues) =? attachment_count fb)%N
   then throw (runtime_error "Attachment size mismatch!")
   else ret tt) ;;
  framebuffer_clear (m_Rasterizer self) fb clearValues.

Definition RenderIndexed (self : Rasterizer) (call : indexed_render_call) : M unit :=
  render_indexed (m_Rasterizer self) call.

Definition Rasterizer_destroy (self : Rasterizer) : M unit := emit rasterizer_destroy_call.

(** ** [class ImGuiRenderer] *)

Record ImGuiRenderer := mk_ImGuiRenderer { renderer_Rasterizer : Rasterizer }.

(** The constructor calls [Get] through the shared pointer it is given. *)
Definition ImGuiRenderer_new (rast : option Rasterizer) : M ImGuiRenderer :=
  match rast with
  | None => throw null_dereference
  | Some r => emit (imgui_init_renderer_call (Rasterizer_Get r)) ;;
              ret (mk_ImGuiRenderer r)
  end.

Definition ImGuiRenderer_Render (self : ImGuiRenderer) (fb : framebuffer) : M unit :=
  emit (imgui_render_call fb).

Definition ImGuiRenderer_destroy (self : ImGuiRenderer) : M unit :=
  emit imgui_shutdown_renderer_call.

(** ** The scene and the shader stages *)

Definition s_Vertices : list Vertex :=
  [ mk_Vertex (glm.mk_vec3 0 (-0.5) 0);
    mk_Vertex (glm.mk_vec3 0.5 0.5 0);
    mk_Vertex (glm.mk_vec3 (-0.5) 0.5 0) ]%R.

Definition s_Indices : list Z := [0; 1; 2].

(** The casts of [vertexData[0]] and [vertexData[1]] succeed when slot 0
    holds a vertex and slot 1 an instance; anything else is outside the
    contract of the stage and gives [None]. *)
Definition VertexShader (vertexData : list buffer_element) (context : shader_context)
    : option (glm.vec4 * shader_context) :=
  match vertexData !! 0%nat, vertexData !! 1%nat with
  | Some (vertex_element vertex), Some (instance_element instance) =>
      let uniforms := uniform_data context in
      let vertexPos := glm.vec4_of (Position vertex) 1 in
      let worldPos := glm.mul_vec (Model instance) vertexPos in
      let viewPos := glm.mul_vec (View uniforms) worldPos in
      let screenPos := glm.mul_vec (Projection uniforms) viewPos in
      Some (screenPos,
            mk_shader_context (uniform_data context) (mk_WorkingData (Color instance)))
  | _, _ => None
  end.

Definition FragmentShader (context : shader_context) : Z :=
  wd_Color (working_data context).

(** ** Depth-buffer validation *)

Definition IsDepthBufferValid (buffer : image_ptr) (width' height' : N) : M bool :=
  match buffer with
  | nullptr => ret false
  | _ =>
      img <- load buffer ;;
      ret ((width img =? width')%N && (height img =? height')%N)
  end.

(** [buffer] is the value of [*buffer] on entry, the result its value on
    exit. *)
Definition ValidateDepthBuffer (window : Window) (buffer : image_ptr) : M image_ptr :=
  size <- Window_GetFramebufferSize window ;;
  valid <- IsDepthBufferValid buffer (fst size) (snd size) ;;
  if negb valid
  then image_free buffer ;;
       image_allocate (fst size) (snd size) IMAGE_FORMAT_DEPTH
  else ret buffer.

(** ** [main]: set-up *)

(** A counted [for] loop: [n] iterations starting at index [i]. *)
Fixpoint for_loop {S : Type} (i n : nat) (body : nat -> S -> M S) (s : S) : M S :=
  match n with
  | O => ret s
  | Datatypes.S n' => s' <- body i s ;; for_loop (Datatypes.S i) n' body s'
  end.

(** Integer conversions of the colour arithmetic. *)
Definition to_uint8 (z : Z) : Z := z mod 2 ^ 8.
Definition to_uint32 (z : Z) : Z := z mod 2 ^ 32.
Definition to_int (z : Z) : Z := (z + 2 ^ 31) mod 2 ^ 32 - 2 ^ 31.

(** Body of the inner loop: [uint8_t channel = rand() & 0xFF;
    instance.Color |= channel << ((j + 1) * 8)].  [channel] is promoted to
    [int] for the shift and the result converted to [uint32_t] for the or. *)
Definition color_channel (j : nat) (Color : Z) : M Z :=
  r <- rand ;;
  let channel := to_uint8 (Z.land r 0xFF) in
  ret (Z.lor Color (to_uint32 (to_int (Z.shiftl channel ((Z.of_nat j + 1) * 8))))).

Definition instance_scale : glm.mat4 :=
  fold_left (fun scale j => glm.set scale j j (glm.get scale j j * 0.25)%R)
            (seq 0 3) (glm.diag 1).

Definition instance_theta (size i : nat) : R := (PI * 2 * INR i / INR size)%R.

Definition instance_rotation (theta : R) : glm.mat4 :=
  let rotation := glm.diag 1 in
  let cos_theta := cos theta in
  let sin_theta := sin theta in
  let rotation := glm.set rotation 0 0 cos_theta in
  let rotation := glm.set rotation 2 0 (- sin_theta)%R in
  let rotation := glm.set rotation 0 2 sin_theta in
  let rotation := glm.set rotation 2 2 cos_theta in
  rotation.

Definition instance_translation : glm.mat4 :=
  glm.set (glm.diag 1) 3 2 (-0.5)%R.

(** Body of the loop over [instances] (for index [i] of [size]). *)
Definition make_instance (size i : nat) : M Instance :=
  Color <- for_loop 0 3 color_channel 0xFF ;;
  let scale := instance_scale in
  let theta := instance_theta size i in
  let rotation := instance_rotation theta in
  let translation := instance_translation in
  let displacement := glm.mul rotation translation in
  ret (mk_Instance (glm.mul scale displacement) Color).

(** The array starts out with indeterminate elements; every one of them is
    assigned by the loop. *)
Definition indeterminate_Instance : Instance := mk_Instance (glm.diag 0) 0.

Definition generate_instances (size : nat) : M (list Instance) :=
  for_loop 0 size
    (fun i instances => instance <- make_instance size i ;;
                        ret (<[i := instance]> instances))
    (replicate size indeterminate_Instance).

Definition bindings : list vertex_binding :=
  [ mk_vertex_binding (sizeof Vertex_type) VERTEX_INPUT_RATE_VERTEX;
    mk_vertex_binding (sizeof Instance_type) VERTEX_INPUT_RATE_INSTANCE ].

Definition color_parameter : blended_parameter :=
  mk_blended_parameter 4 ELEMENT_TYPE_BYTE 0.

Definition pipeline : pipeline_t :=
  mk_pipeline
    (mk_pipeline_shader (sizeof WorkingData_type) VertexShader FragmentShader
                        1 [color_parameter])
    true true
    (N.of_nat (length bindings)) bindings
    false WINDING_ORDER_CCW TOPOLOGY_TYPE_TRIANGLES.

Definition vbufs (instances : list Instance) : list vertex_buffer :=
  [ mk_vertex_buffer (vertices_data s_Vertices)
                     (times (length s_Vertices) (sizeof Vertex_type));
    mk_vertex_buffer (instances_data instances)
                     (times (length instances) (sizeof Instance_type)) ].

Definition clearValues : list image_pixel := [ color 0x787878FF; depth 1 ].

(** ** [main]: the frame loop *)

(** What the loop body works with: the local variables of [main] that it
    reads and writes, and the build configuration.  [fb] carries the
    [attachments] vector (see [framebuffer]).  [assert_live] says that
    [NDEBUG] is not defined, which is what [s_IsDebug] records (lines 62-66);
    the [assert] inside glm, compiled in the same translation unit, depends
    on it. *)
Record Locals := mk_Locals {
  assert_live : bool;
  rast : Rasterizer;
  window : Window;
  renderer : ImGuiRenderer;
  instances : list Instance;
  fb : framebuffer;
  uniforms : Uniforms;
  t0 : R;
  cameraTheta : R
}.

(** [(float)n] for a [std::uint32_t]: [n] rounded to a significand of 24
    bits, to nearest and to even on a tie.  The result is again a whole
    number. *)
Definition float_of_uint32 (n : N) : N :=
  let bits := N.size n in
  if (bits <=? 24)%N then n
  else
    let shift := (bits - 24)%N in
    let q := N.shiftr n shift in
    let r := (n - N.shiftl q shift)%N in
    let half := N.shiftl 1 (shift - 1) in
    let q' := if (half <? r)%N || ((r =? half)%N && N.odd q)
              then (q + 1)%N else q in
    N.shiftl q' shift.

(** [(float)w / (float)h] as [glm::perspective] receives it.  The value is
    read in exact arithmetic, like every float of the embedding.  The
    division gives NaN for 0/0.  It gives epsilon when the quotient of the
    two floats rounds to [2^-23], that is when it lies between the midpoints
    to the neighbouring floats, [2^-23 (1 - 2^-25)] and [2^-23 (1 + 2^-24)],
    both of which round to the even significand of [2^-23]. *)
Definition float_quotient (w h : N) : glm.float32 :=
  let a := float_of_uint32 w in
  let b := float_of_uint32 h in
  glm.mk_float32
    (IZR (Z.of_N w) / IZR (Z.of_N h))%R
    ((a =? 0)%N && (b =? 0)%N)
    (negb (b =? 0)%N &&
     (b * (2 ^ 25 - 1) <=? a * 2 ^ 48)%N && (a * 2 ^ 48 <=? b * (2 ^ 25 + 2))%N).

(** [call] holds pointers to [pipeline], [fb], [vbufs] and [uniforms]; this
    is the call as the rasterizer reads it. *)
Definition call (st : Locals) : indexed_render_call :=
  mk_indexed_render_call pipeline (fb st) (vbufs (instances st)) (uniforms st)
    s_Indices (N.of_nat (length s_Indices)) (N.of_nat (length (instances st))).

(** [attachments[i]] read through the locals. *)
Definition attachment (st : Locals) (i : nat) : image_ptr :=
  default nullptr (attachments (fb st) !! i).

(** The values the camera block of one frame computes (lines 331-352). *)
Record Camera := mk_Camera {
  delta : R;
  cosTheta : R;
  sinTheta : R;
  phi : R;
  cosPhi : R;
  sinPhi : R;
  cameraTheta' : R;
  cameraDistance : R;
  eye : glm.vec3
}.

Definition center : glm.vec3 := glm.mk_vec3 0 0 0.
Definition up : glm.vec3 := glm.mk_vec3 0 1 0.

Definition camera (t0 t1 cameraTheta : R) : Camera :=
  let delta := (t1 - t0)%R in
  let cosTheta := cos cameraTheta in
  let sinTheta := sin cameraTheta in
  let phi := (cosTheta * PI / 4)%R in
  let cosPhi := cos phi in
  let sinPhi := sin phi in
  let cameraTheta := (cameraTheta + delta * 0.1)%R in
  let cameraDistance := (Rabs cosTheta * 5)%R in
  let eye := glm.mk_vec3 (cosTheta * cosPhi * cameraDistance)
                         (sinPhi * cameraDistance)
                         (sinTheta * cosPhi * cameraDistance) in
  mk_Camera delta cosTheta sinTheta phi cosPhi sinPhi cameraTheta cameraDistance eye.

(** What the environment contributes to one frame: the state of the window
    after [Window::Poll] and the reading of the clock. *)
Record FrameEnv := mk_FrameEnv { polled : window_t; now : R }.

(** The body of the [while] loop.  The call of [glm::perspective] (line
    351) comes after the validation of the depth buffer and before the
    clear: when its assertion fails, the frame ends there, with the depth
    image of the validation allocated.  Where the assertion is compiled out
    and the window has no width or no height, the program goes on with a
    projection that is not a matrix of numbers; the embedding goes on as
    well, and what it says about the projection is stated for the other
    frames only. *)
Definition frame (env : FrameEnv) (st : Locals) : M Locals :=
  Window_Poll (polled env) ;;
  emit imgui_new_frame ;;
  emit imgui_render_frame ;;
  size <- Window_GetFramebufferSize (window st) ;;
  let fb := mk_framebuffer (fst size) (snd size)
              (attachment_count (fb st)) (attachments (fb st)) in
  let aspect := float_quotient (fb_width fb) (fb_height fb) in
  backbuffer <- Window_GetBackbuffer (window st) ;;
  let fb := mk_framebuffer (fb_width fb) (fb_height fb) (attachment_count fb)
              (<[0%nat := backbuffer]> (attachments fb)) in
  depthbuffer <- ValidateDepthBuffer (window st)
                   (default nullptr (attachments fb !! 1%nat)) ;;
  let fb := mk_framebuffer (fb_width fb) (fb_height fb) (attachment_count fb)
              (<[1%nat := depthbuffer]> (attachments fb)) in
  let t1 := now env in
  let cam := camera (t0 st) t1 (cameraTheta st) in
  Projection <- match glm.perspective (assert_live st) (glm.radians 45)
                        aspect 0.1 100 with
                | Some m => ret m
                | None => throw assertion_failure
                end ;;
  let uniforms := mk_Uniforms Projection (glm.lookAt (eye cam) center up) in
  let st := mk_Locals (assert_live st) (rast st) (window st) (renderer st)
              (instances st) fb uniforms t1 (cameraTheta' cam) in
  ClearFramebuffer (rast st) fb clearValues ;;
  RenderIndexed (rast st) (call st) ;;
  ImGuiRenderer_Render (renderer st) fb ;;
  Window_SwapBuffers (window st) ;;
  ret st.

(** [while (!window->IsCloseRequested()) { ... }] over the frames the
    environment provides.  The result says whether the loop was left (the
    window asked to close) or is still running when the frames run out. *)
Fixpoint main_loop (envs : list FrameEnv) (st : Locals) : M (Locals * bool) :=
  closed <- Window_IsCloseRequested (window st) ;;
  if closed : bool then ret (st, true)
  else match envs with
       | [] => ret (st, false)
       | env :: envs' => st' <- frame env st ;; main_loop envs' st'
       end.

(** What the environment contributes to a run. *)
Record Environment := mk_Environment {
  s_IsDebug : bool;
  rasterizer_created : bool;
  window_created : option window_t;
  start_time : R;
  frames : list FrameEnv
}.

(** [main].  [Some 0] is the return value; [None] means that the loop is
    still running after the last frame of the environment. *)
Definition main (env : Environment) : M (option Z) :=
  rast <- Rasterizer_Create (s_IsDebug env) (rasterizer_created env) ;;
  window <- Window_Create "Test" 1600 900 (window_created env) ;;
  emit imgui_create_context ;;
  window <- match window with
            | Some window => Window_InitImGui window ;; ret window
            | None => throw null_dereference
            end ;;
  renderer <- ImGuiRenderer_new rast ;;
  (* the renderer shares [rast], which is therefore not null from here on *)
  let rast := renderer_Rasterizer renderer in
  let attachments := [nullptr; nullptr] in
  (* [fb.width], [fb.height] and [uniforms] are assigned in the first frame *)
  let fb := mk_framebuffer 0 0 (N.of_nat (length attachments)) attachments in
  instances <- generate_instances 6 ;;
  let uniforms := mk_Uniforms (glm.diag 0) (glm.diag 0) in
  let t0 := start_time env in
  let cameraTheta := 0%R in
  r <- main_loop (frames env)
         (mk_Locals (s_IsDebug env) rast window renderer instances fb uniforms
                    t0 cameraTheta) ;;
  if snd r : bool
  then image_free (attachment (fst r) 1) ;;
       ImGuiRenderer_destroy renderer ;;
       Window_destroy window ;;
       emit imgui_destroy_context ;;
       Rasterizer_destroy rast ;;
       ret (Some 0)
  else ret None.

(** The world [main] starts in: no window yet, no image allocated, nothing
    called; [draws] is the sequence [rand] will produce. *)
Definition boot (draws : nat -> Z) : World :=
  mk_World (mk_window (0%N, 0%N) None false) ∅ 1%positive draws 0 [].

(** ** Vocabulary of the specification *)

(** The transforms the specification names, as matrices: a uniform scale,
    a translation, and the rotation about the Y axis that takes [(x, y, z)]
    to [(x cos t - z sin t, y, x sin t + z cos t)]. *)
Definition scale_matrix (s : R) : glm.mat4 :=
  glm.mk_mat4 (glm.mk_vec4 s 0 0 0) (glm.mk_vec4 0 s 0 0)
              (glm.mk_vec4 0 0 s 0) (glm.mk_vec4 0 0 0 1).

Definition translate_matrix (t : glm.vec3) : glm.mat4 :=
  glm.mk_mat4 (glm.mk_vec4 1 0 0 0) (glm.mk_vec4 0 1 0 0) (glm.mk_vec4 0 0 1 0)
              (glm.mk_vec4 (glm.x3 t) (glm.y3 t) (glm.z3 t) 1).

Definition rotate_y_matrix (t : R) : glm.mat4 :=
  glm.mk_mat4 (glm.mk_vec4 (cos t) 0 (sin t) 0) (glm.mk_vec4 0 1 0 0)
              (glm.mk_vec4 (- sin t) 0 (cos t) 0)%R (glm.mk_vec4 0 0 0 1).

(** The camera block read with the advance of the angle first and every
    derived value taken from the advanced angle. *)
Definition camera_advance_first (t0 t1 cameraTheta : R) : Camera :=
  let delta := (t1 - t0)%R in
  let cameraTheta := (cameraTheta + delta * 0.1)%R in
  let cosTheta := cos cameraTheta in
  let sinTheta := sin cameraTheta in
  let phi := (cosTheta * (PI / 4))%R in
  let cosPhi := cos phi in
  let sinPhi := sin phi in
  let cameraDistance := (Rabs cosTheta * 5)%R in
  let eye := glm.mk_vec3 (cosTheta * cosPhi * cameraDistance)
                         (sinPhi * cameraDistance)
                         (sinTheta * cosPhi * cameraDistance) in
  mk_Camera delta cosTheta sinTheta phi cosPhi sinPhi cameraTheta cameraDistance eye.

(** The camera blocks of successive frames: [clock] lists the readings of
    the clock, one per frame, and [t0] and [cameraTheta] are threaded from
    frame to frame as the loop does. *)
Fixpoint camera_frames (t0 : R) (clock : list R) (cameraTheta : R) : list Camera :=
  match clock with
  | [] => []
  | t1 :: clock' =>
      let cam := camera t0 t1 cameraTheta in
      cam :: camera_frames t1 clock' (cameraTheta' cam)
  end.



(** The frames of [envs] that the loop executes when [closed] is what the
    window answers at the first test of the loop condition. *)
Fixpoint executed (closed : bool) (envs : list FrameEnv) : list FrameEnv :=
  if closed then []
  else match envs with
       | [] => []
       | env :: envs' => env :: executed (close_requested (polled env)) envs'
       end.


(** The allocator never reuses a serial number. *)
Definition allocator_ok (w : World) : Prop :=
  forall id img, images w !! id = Some img -> (id < next_image w)%positive.

(** A depth attachment pointer is either null or a live allocated image. *)
Definition depth_ok (w : World) (p : image_ptr) : Prop :=
  match p with
  | nullptr => True
  | backbuffer_ptr => False
  | allocated_ptr id => is_Some (images w !! id)
  end.

Definition is_allocation (e : event) : bool :=
  match e with image_allocate_call _ _ _ _ => true | _ => false end.

Definition allocations (tr : list event) : nat :=
  length (List.filter is_allocation tr).

Definition is_allocator_call (e : event) : bool :=
  match e with
  | image_allocate_call _ _ _ _ | image_free_call _ => true
  | _ => false
  end.

(** The dimensions of the depth target of every draw call in a trace. *)
Definition draw_depth_sizes (tr : list event) : list (option (N * N)) :=
  flat_map (fun e => match e with
                     | render_indexed_call _ [_; Some d] => [Some (width d, height d)]
                     | render_indexed_call _ _ => [None]
                     | _ => []
                     end) tr.

(** The instance count of every draw call in a trace. *)
Definition draw_instance_counts (tr : list event) : list N :=
  flat_map (fun e => match e with
                     | render_indexed_call call _ => [instance_count call]
                     | _ => []
                     end) tr.




(** The pieces of one frame, for stating what [frame] does: the world when
    the frame reaches the validation of the depth buffer, the backbuffer
    pointer it has fetched, and the locals it ends with when the depth
    attachment is [depthbuffer]. *)
Definition frame_start (env : FrameEnv) (w : World) : World :=
  log (log (world_of (window_poll (polled env) w)) [imgui_new_frame])
      [imgui_render_frame].

Definition frame_backbuffer (env : FrameEnv) : image_ptr :=
  match backbuffer (polled env) with Some _ => backbuffer_ptr | None => nullptr end.

Definition frame_locals (env : FrameEnv) (st : Locals) (depthbuffer : image_ptr)
    : Locals :=
  let size := framebuffer_size (polled env) in
  let aspect := (IZR (Z.of_N (fst size)) / IZR (Z.of_N (snd size)))%R in
  let cam := camera (t0 st) (now env) (cameraTheta st) in
  mk_Locals (assert_live st) (rast st) (window st) (renderer st) (instances st)
    (mk_framebuffer (fst size) (snd size) (attachment_count (fb st))
       (<[1%nat := depthbuffer]>
          (<[0%nat := frame_backbuffer env]> (attachments (fb st)))))
    (mk_Uniforms (glm.perspective_matrix (glm.radians 45) aspect 0.1 100)
                 (glm.lookAt (eye cam) center up))
    (now env) (cameraTheta' cam).

(** Whether the assertion of [glm::perspective] holds, or is compiled out,
    in a frame whose window reports [size]. *)
Definition perspective_passes (assertions : bool) (size : N * N) : bool :=
  let aspect := float_quotient (fst size) (snd size) in
  negb (assertions && (glm.is_nan aspect || glm.is_epsilon aspect)).

(** The world after the depth buffer [p] has been released and a new one
    allocated at the size the window reports. *)
Definition reallocated (w : World) (p : image_ptr) : World :=
  let size := framebuffer_size (win w) in
  world_of ((image_free p ;;
             image_allocate (fst size) (snd size) IMAGE_FORMAT_DEPTH) w).

(** What [IsDepthBufferValid] answers for the pointer [p] and the size the
    window reports, when [p] is null or can be read. *)
Definition depth_buffer_valid (w : World) (p : image_ptr) : bool :=
  match deref w p with
  | Some img => (width img =? fst (framebuffer_size (win w)))%N &&
                (height img =? snd (framebuffer_size (win w)))%N
  | None => false
  end.

(** The events of [tr'] that come after those of [tr]. *)
Definition events_since (tr tr' : list event) : list event :=
  drop (length tr) tr'.

(** What holds of the locals of [main] whenever the loop condition is
    tested: the framebuffer has its two attachment slots and the depth slot
    is null or a live allocated image. *)
Definition loop_invariant (st : Locals) (w : World) : Prop :=
  attachment_count (fb st) = 2%N /\
  length (attachments (fb st)) = 2%nat /\
  depth_ok w (attachment st 1).


(** The calls of the validation of the depth buffer in the world [w], for
    the old pointer [old] and the pointer [new] it returns. *)
Definition validation_events (w : World) (old new : image_ptr) : list event :=
  if depth_buffer_valid w old then []
  else [image_free_call old;
        image_allocate_call (fst (framebuffer_size (win w)))
          (snd (framebuffer_size (win w))) IMAGE_FORMAT_DEPTH new].

(** The calls of a frame up to the assertion of [glm::perspective], and
    those after it. *)
Definition frame_prefix (validation : list event) : list event :=
  [window_poll_call; imgui_new_frame; imgui_render_frame] ++ validation.

Definition frame_suffix (st' : Locals) (targets : list (option image_t))
    : list event :=
  [framebuffer_clear_call (fb st') clearValues;
   render_indexed_call (call st') targets;
   imgui_render_call (fb st');
   window_swap_buffers_call].

(** The frames of [envs] that run to their end: those before the first
    close request and before the first frame in which the assertion of
    [glm::perspective] fails.  [aborts] says whether there is such a frame
    before the loop is left. *)
Fixpoint completed (assertions closed : bool) (envs : list FrameEnv)
    : list FrameEnv :=
  if closed then []
  else match envs with
       | [] => []
       | env :: envs' =>
           if perspective_passes assertions (framebuffer_size (polled env))
           then env :: completed assertions (close_requested (polled env)) envs'
           else []
       end.

Fixpoint aborts (assertions closed : bool) (envs : list FrameEnv) : bool :=
  if closed then false
  else match envs with
       | [] => false
       | env :: envs' =>
           if perspective_passes assertions (framebuffer_size (polled env))
           then aborts assertions (close_requested (polled env)) envs'
           else true
       end.

(** A sample run: a 1600x900 window that is resized to 800x600 before the
    second frame. *)
Definition sample_surface (w h : N) : window_t :=
  mk_window (w, h) (Some (mk_image w h IMAGE_FORMAT_COLOR)) false.

Definition sample_environment : Environment :=
  mk_Environment true true (Some (sample_surface 1600 900)) 0%R
    [ mk_FrameEnv (sample_surface 1600 900) 1%R;
      mk_FrameEnv (sample_surface 800 600) 2%R ].

Definition sample_world : World :=
  world_of (window_poll (sample_surface 1600 900) (boot (fun _ => 0))).

(** Two worlds that differ at most in how far [rand] has advanced. *)
Definition same_but_rand (w w' : World) : Prop :=
  win w' = win w /\ images w' = images w /\ next_image w' = next_image w /\
  trace w' = trace w.

(** ** Vocabulary for whole runs *)

(** The calls of the set-up of [main], up to the construction of the
    renderer. *)
Definition setup_events (env : Environment) : list event :=
  [ rasterizer_create_call (negb (s_IsDebug env));
    window_create_call "Test" 1600 900;
    imgui_create_context;
    window_init_imgui_call;
    imgui_init_renderer_call (rasterizer_handle (negb (s_IsDebug env))) ].

(** The world when the set-up has succeeded and the window started out as
    [created]. *)
Definition setup_world (env : Environment) (draws : nat -> Z) (created : window_t)
    : World :=
  mk_World created ∅ 1%positive draws 0 (setup_events env).

(** The locals of [main] when the loop is entered. *)
Definition initial_locals (env : Environment) (instances : list Instance) : Locals :=
  let rast := mk_Rasterizer (rasterizer_handle (negb (s_IsDebug env))) in
  mk_Locals (s_IsDebug env) rast (mk_Window window_ptr) (mk_ImGuiRenderer rast)
    instances (mk_framebuffer 0 0 2 [nullptr; nullptr])
    (mk_Uniforms (glm.diag 0) (glm.diag 0)) (start_time env) 0.

(** The calls [main] makes after the loop. *)
Definition teardown_events (depthbuffer : image_ptr) : list event :=
  [ image_free_call depthbuffer;
    imgui_shutdown_renderer_call;
    window_destroy_call;
    imgui_destroy_context;
    rasterizer_destroy_call ].

(** Whether the loop is left within the frames [envs]: the window asks to
    close at the first test of the condition ([closed]) or after one of the
    polls. *)
Fixpoint close_seen (closed : bool) (envs : list FrameEnv) : bool :=
  if closed then true
  else match envs with
       | [] => false
       | env :: envs' => close_seen (close_requested (polled env)) envs'
       end.

Definition is_draw (e : event) : bool :=
  match e with render_indexed_call _ _ => true | _ => false end.
Definition is_clear (e : event) : bool :=
  match e with framebuffer_clear_call _ _ => true | _ => false end.
Definition is_swap (e : event) : bool :=
  match e with window_swap_buffers_call => true | _ => false end.
Definition is_poll (e : event) : bool :=
  match e with window_poll_call => true | _ => false end.
Definition is_overlay (e : event) : bool :=
  match e with imgui_render_call _ => true | _ => false end.

Definition count (f : event -> bool) (tr : list event) : nat :=
  length (List.filter f tr).

(** Replaying the allocator calls of a trace for a program that owns at
    most one image: [live] is the image it holds.  A release must be of
    null or of the image held, an allocation must find nothing held;
    anything else stops the replay with [None]. *)
Fixpoint allocator_replay (live : option positive) (tr : list event)
    : option (option positive) :=
  match tr with
  | [] => Some live
  | image_free_call nullptr :: tr' => allocator_replay live tr'
  | image_free_call (allocated_ptr id) :: tr' =>
      match live with
      | Some id' => if Pos.eqb id id' then allocator_replay None tr' else None
      | None => None
      end
  | image_free_call backbuffer_ptr :: _ => None
  | image_allocate_call _ _ _ (allocated_ptr id) :: tr' =>
      match live with
      | None => allocator_replay (Some id) tr'
      | Some _ => None
      end
  | image_allocate_call _ _ _ _ :: _ => None
  | _ :: tr' => allocator_replay live tr'
  end.

(** The depth attachment and the table of live images when the program
    holds [live]. *)
Definition holds (live : option positive) (st : Locals) (w : World) : Prop :=
  match live with
  | None => attachment st 1 = nullptr /\ images w = ∅
  | Some id => attachment st 1 = allocated_ptr id /\
               exists img, images w = {[ id := img ]}
  end.

(** The table of live images alone. *)
Definition held (live : option positive) (w : World) : Prop :=
  match live with
  | None => images w = ∅
  | Some id => exists img, images w = {[ id := img ]}
  end.

(** What every clear of [main] is called with. *)
Definition clear_is_complete (e : event) : Prop :=
  match e with
  | framebuffer_clear_call fb values =>
      values = clearValues /\ attachment_count fb = 2%N /\
      length (attachments fb) = 2%nat
  | _ => True
  end.

(** The order of the calls of a frame, as an automaton over the trace:
    poll, then the validation's allocator calls, then clear, draw, overlay
    and swap.  Outside a frame only a release is accepted (the one of the
    teardown); other calls do not move the automaton. *)
Inductive phase : Set := Idle | Polled | Cleared | Drawn | Overlaid.

Definition phase_step (ph : phase) (e : event) : option phase :=
  match e, ph with
  | window_poll_call, Idle => Some Polled
  | window_poll_call, _ => None
  | image_allocate_call _ _ _ _, Polled => Some Polled
  | image_allocate_call _ _ _ _, _ => None
  | image_free_call _, Polled => Some Polled
  | image_free_call _, Idle => Some Idle
  | image_free_call _, _ => None
  | framebuffer_clear_call _ _, Polled => Some Cleared
  | framebuffer_clear_call _ _, _ => None
  | render_indexed_call _ _, Cleared => Some Drawn
  | render_indexed_call _ _, _ => None
  | imgui_render_call _, Drawn => Some Overlaid
  | imgui_render_call _, _ => None
  | window_swap_buffers_call, Overlaid => Some Idle
  | window_swap_buffers_call, _ => None
  | _, _ => Some ph
  end.

Fixpoint frame_protocol (ph : phase) (tr : list event) : option phase :=
  match tr with
  | [] => Some ph
  | e :: tr' =>
      match phase_step ph e with
      | Some ph' => frame_protocol ph' tr'
      | None => None
      end
  end.

(** The world after the teardown of [main], entered with the locals [st]
    in the world [w]. *)
Definition torn_down (st : Locals) (w : World) : World :=
  mk_World (win w)
           (match attachment st 1 with
            | allocated_ptr id => delete id (images w)
            | _ => images w
            end)
           (next_image w) (rand_draws w) (rand_next w)
           (trace w ++ teardown_events (attachment st 1)).

(** The frames a run of [main] completes: none when the set-up fails,
    otherwise those up to the first close request or failed assertion.
    [run_aborts] says whether the run ends in the assertion. *)
Definition completed_frames (env : Environment) : list FrameEnv :=
  match rasterizer_created env, window_created env with
  | true, Some created =>
      completed (s_IsDebug env) (close_requested created) (frames env)
  | _, _ => []
  end.

Definition run_aborts (env : Environment) : bool :=
  match rasterizer_created env, window_created env with
  | true, Some created =>
      aborts (s_IsDebug env) (close_requested created) (frames env)
  | _, _ => false
  end.

Definition frames_run (env : Environment) : nat := length (completed_frames env).

(** What [main] does once the instances [insts] are generated in the world
    [w1]: the loop, and the teardown if the loop is left. *)
Definition main_after_setup (env : Environment) (insts : list Instance)
    (w1 : World) : outcome (option Z) :=
  match main_loop (frames env) (initial_locals env insts) w1 with
  | Ok (st', true) w2 => Ok (Some 0) (torn_down st' w2)
  | Ok (_, false) w2 => Ok None w2
  | Abort e w2 => Abort e w2
  end.

(** A window of ordinary size: it has a width, and its height is below
    [2^23]. *)
Definition ordinary_size (size : N * N) : Prop :=
  (0 < fst size)%N /\ (snd size < 8388608)%N.

(** More sample runs: one whose window asks to close after the first
    frame, one whose window cannot be created, one whose rasterizer cannot
    be created, one whose window reports another size than its backbuffer
    has, and one whose window is minimized to 0x0 in the second frame, as a
    debug and as a release build. *)
Definition sample_headless_environment : Environment :=
  mk_Environment true false (Some (sample_surface 1600 900)) 0%R [].


Definition sample_minimized_environment (debug : bool) : Environment :=
  mk_Environment debug true (Some (sample_surface 1600 900)) 0%R
    [ mk_FrameEnv (sample_surface 1600 900) 1%R;
      mk_FrameEnv (sample_surface 0 0) 2%R;
      mk_FrameEnv (sample_surface 1600 900) 3%R ].

Definition sample_closing_environment : Environment :=
  mk_Environment true true (Some (sample_surface 1600 900)) 0%R
    [ mk_FrameEnv (mk_window (1600, 900)%N
                     (Some (mk_image 1600 900 IMAGE_FORMAT_COLOR)) true) 1%R;
      mk_FrameEnv (sample_surface 800 600) 2%R ].

Definition sample_failing_environment : Environment :=
  mk_Environment true true None 0%R [ mk_FrameEnv (sample_surface 1600 900) 1%R ].

(** The low byte of the [k]-th number [rand] produces from the world [w]
    on. *)
Definition drawn_byte (w : World) (k : nat) : Z :=
  rand_draws w (k + rand_next w) mod 256.

(** The squared distance of two points, from their first three
    coordinates. *)
Definition sq_dist (u v : glm.vec4) : R :=
  ((glm.x4 u - glm.x4 v) ^ 2 + (glm.y4 u - glm.y4 v) ^ 2 +
   (glm.z4 u - glm.z4 v) ^ 2)%R.

(** The draw calls of a trace, in order. *)
Definition draw_calls (tr : list event) : list indexed_render_call :=
  flat_map (fun e => match e with
                     | render_indexed_call call _ => [call]
                     | _ => []
                     end) tr.

(** The uniforms a frame computes from what the window reports and from its
    camera block. *)
Definition frame_uniforms (env : FrameEnv) (cam : Camera) : Uniforms :=
  let size := framebuffer_size (polled env) in
  mk_Uniforms
    (glm.perspective_matrix (glm.radians 45)
       (IZR (Z.of_N (fst size)) / IZR (Z.of_N (snd size)))%R 0.1 100)
    (glm.lookAt (eye cam) center up).

(** What every draw call of a run has in common when [instances] is the
    instance array. *)
Definition draws_scene (instances : list Instance) (call : indexed_render_call)
    : Prop :=
  call_pipeline call = pipeline /\
  call_vertices call = vbufs instances /\
  call_indices call = s_Indices /\
  index_count call = 3%N /\
  instance_count call = 6%N /\
  attachment_count (call_framebuffer call) = 2%N.

(** ** The earlier revision of [main]: overlay only *)

(** The other revision of the file has the same three classes and a [main]
    that clears the backbuffer and renders the overlay: one attachment, no
    depth buffer, no draw call.  [ImGui::ShowDemoWindow(&showDemo)] is
    represented by what it does to the program, the value it leaves in the
    static flag [showDemo]; the environment says what that value is in the
    frames where the call is made. *)
Module revision0.

Record Locals := mk_Locals {
  rast : Rasterizer;
  window : Window;
  renderer : ImGuiRenderer;
  fb : framebuffer;
  showDemo : bool
}.

Record FrameEnv := mk_FrameEnv { polled : window_t; demo_open : bool }.

Definition clearValues : list image_pixel := [ color 0x787878FF ].

(** The body of the [while] loop.  [fb.attachments] points at the local
    [backbuffer], which is the one element of [attachments]. *)
Definition frame (env : FrameEnv) (st : Locals) : M Locals :=
  Window_Poll (polled env) ;;
  emit imgui_new_frame ;;
  let showDemo := if showDemo st then demo_open env else false in
  emit imgui_render_frame ;;
  size <- Window_GetFramebufferSize (window st) ;;
  let fb := mk_framebuffer (fst size) (snd size)
              (attachment_count (fb st)) (attachments (fb st)) in
  backbuffer <- Window_GetBackbuffer (window st) ;;
  let fb := mk_framebuffer (fb_width fb) (fb_height fb) (attachment_count fb)
              (<[0%nat := backbuffer]> (attachments fb)) in
  ClearFramebuffer (rast st) fb clearValues ;;
  ImGuiRenderer_Render (renderer st) fb ;;
  Window_SwapBuffers (window st) ;;
  ret (mk_Locals (rast st) (window st) (renderer st) fb showDemo).

Fixpoint main_loop (envs : list FrameEnv) (st : Locals) : M (Locals * bool) :=
  closed <- Window_IsCloseRequested (window st) ;;
  if closed : bool then ret (st, true)
  else match envs with
       | [] => ret (st, false)
       | env :: envs' => st' <- frame env st ;; main_loop envs' st'
       end.

Record Environment := mk_Environment {
  s_IsDebug : bool;
  rasterizer_created : bool;
  window_created : option window_t;
  frames : list FrameEnv
}.

(** [main].  The result also gives the locals the loop was left with (or
    has reached), for stating what became of [showDemo]. *)
Definition main (env : Environment) : M (option Z * Locals) :=
  rast <- Rasterizer_Create (s_IsDebug env) (rasterizer_created env) ;;
  window <- Window_Create "Test" 1600 900 (window_created env) ;;
  emit imgui_create_context ;;
  window <- match window with
            | Some window => Window_InitImGui window ;; ret window
            | None => throw null_dereference
            end ;;
  renderer <- ImGuiRenderer_new rast ;;
  let rast := renderer_Rasterizer renderer in
  let backbuffer := nullptr in
  let fb := mk_framebuffer 0 0 1 [backbuffer] in
  r <- main_loop (frames env) (mk_Locals rast window renderer fb true) ;;
  if snd r : bool
  then ImGuiRenderer_destroy renderer ;;
       Window_destroy window ;;
       emit imgui_destroy_context ;;
       Rasterizer_destroy rast ;;
       ret (Some 0, fst r)
  else ret (None, fst r).

(** The frames the loop executes, as for the later revision. *)
Fixpoint executed (closed : bool) (envs : list FrameEnv) : list FrameEnv :=
  if closed then []
  else match envs with
       | [] => []
       | env :: envs' => env :: executed (close_requested (polled env)) envs'
       end.

Fixpoint close_seen (closed : bool) (envs : list FrameEnv) : bool :=
  if closed then true
  else match envs with
       | [] => false
       | env :: envs' => close_seen (close_requested (polled env)) envs'
       end.

(** What every clear of this revision is called with. *)
Definition clear_is_single (e : event) : Prop :=
  match e with
  | framebuffer_clear_call fb values =>
      values = clearValues /\ attachment_count fb = 1%N /\
      length (attachments fb) = 1%nat
  | _ => True
  end.

End revision0.

(** A sample run of the earlier revision: the demo window is closed in the
    second frame, the window asks to close in the fourth. *)
Definition sample_overlay_environment : revision0.Environment :=
  revision0.mk_Environment true true (Some (sample_surface 1600 900))
    [ revision0.mk_FrameEnv (sample_surface 1600 900) true;
      revision0.mk_FrameEnv (sample_surface 1600 900) false;
      revision0.mk_FrameEnv (sample_surface 800 600) true;
      revision0.mk_FrameEnv (mk_window (800, 600)%N None true) true;
      revision0.mk_FrameEnv (sample_surface 800 600) true ].

(** * Properties *)

(** ** Clearing the framebuffer *)

Section Clear.
Variables (self : Rasterizer) (fb : framebuffer) (values : list image_pixel).

Lemma ClearFramebuffer_eq (w : World) :
  ClearFramebuffer self fb values w =
  if (N.of_nat (length values) =? attachment_count fb)%N
  then Ok tt (log w [framebuffer_clear_call fb values])
  else Abort (runtime_error "Attachment size mismatch!") w.
Proof.
  unfold ClearFramebuffer, bind, framebuffer_clear, emit, throw, ret.
  destruct (N.of_nat (length values) =? attachment_count fb)%N; reflexivity.
Qed.

(** C1.  With as many clear values as the framebuffer has attachments the
    clear succeeds and is forwarded to the rasterizer, as one call with the
    framebuffer and the values; with any other number of values it throws
    the runtime error "Attachment size mismatch!", and whatever the caller
    meant to do next is not done: the error is the outcome of the caller
    too. *)
Theorem ClearFramebuffer_checks_count (w : World) :
  (N.of_nat (length values) = attachment_count fb ->
   ClearFramebuffer self fb values w =
   Ok tt (log w [framebuffer_clear_call fb values])) /\
  (N.of_nat (length values) <> attachment_count fb ->
   ClearFramebuffer self fb values w =
   Abort (runtime_error "Attachment size mismatch!") w /\
   forall (B : Type) (next : unit -> M B),
     bind (ClearFramebuffer self fb values) next w =
     Abort (runtime_error "Attachment size mismatch!") w).
Proof.
  split; intros Hcount.
  - rewrite ClearFramebuffer_eq.
    apply N.eqb_eq in Hcount. rewrite Hcount. reflexivity.
  - apply N.eqb_neq in Hcount.
    assert (Hthrow : ClearFramebuffer self fb values w =
                     Abort (runtime_error "Attachment size mismatch!") w).
    { rewrite ClearFramebuffer_eq, Hcount. reflexivity. }
    split; [exact Hthrow|].
    intros B next. unfold bind at 1. rewrite Hthrow. reflexivity.
Qed.

(** C10.  When the number of clear values differs from the attachment count
    the error is raised in the world the call started in: the trace has no
    new entry, so the rasterizer was not asked to clear, and every image
    pointer, those of the framebuffer's attachments included, reads as
    before. *)
Theorem ClearFramebuffer_error_is_atomic (w : World) :
  N.of_nat (length values) <> attachment_count fb ->
  exists e,
    ClearFramebuffer self fb values w = Abort e w /\
    trace (world_of (ClearFramebuffer self fb values w)) = trace w /\
    Forall (fun ev => forall fb' values', ev <> framebuffer_clear_call fb' values')
           (drop (length (trace w))
                 (trace (world_of (ClearFramebuffer self fb values w)))) /\
    Forall (fun p => deref (world_of (ClearFramebuffer self fb values w)) p = deref w p)
           (attachments fb).
Proof.
  intros Hcount. apply N.eqb_neq in Hcount.
  exists (runtime_error "Attachment size mismatch!").
  rewrite ClearFramebuffer_eq, Hcount. cbn [world_of].
  split; [reflexivity|]. split; [reflexivity|]. split.
  - rewrite drop_all. constructor.
  - apply Forall_forall. reflexivity.
Qed.

End Clear.

Lemma ClearFramebuffer_checks_count_witness :
  (ClearFramebuffer (mk_Rasterizer (rasterizer_handle false))
     (mk_framebuffer 4 3 2 [nullptr; nullptr]) clearValues (boot (fun _ => 0)) =
   Ok tt (log (boot (fun _ => 0))
            [framebuffer_clear_call (mk_framebuffer 4 3 2 [nullptr; nullptr])
               clearValues])) /\
  (ClearFramebuffer (mk_Rasterizer (rasterizer_handle false))
     (mk_framebuffer 4 3 1 [nullptr]) clearValues (boot (fun _ => 0)) =
   Abort (runtime_error "Attachment size mismatch!") (boot (fun _ => 0))).
Proof.
  split.
  - apply (ClearFramebuffer_checks_count (mk_Rasterizer (rasterizer_handle false))
             (mk_framebuffer 4 3 2 [nullptr; nullptr]) clearValues).
    reflexivity.
  - apply (ClearFramebuffer_checks_count (mk_Rasterizer (rasterizer_handle false))
             (mk_framebuffer 4 3 1 [nullptr]) clearValues).
    discriminate.
Defined.

Lemma ClearFramebuffer_error_is_atomic_witness :
  exists e,
    ClearFramebuffer (mk_Rasterizer (rasterizer_handle false))
      (mk_framebuffer 4 3 1 [nullptr]) clearValues (boot (fun _ => 0)) =
    Abort e (boot (fun _ => 0)).
Proof.
  destruct (ClearFramebuffer_error_is_atomic (mk_Rasterizer (rasterizer_handle false))
              (mk_framebuffer 4 3 1 [nullptr]) clearValues (boot (fun _ => 0)))
    as [e [He _]].
  - discriminate.
  - exists e. exact He.
Defined.

(** ** Loops *)

(** Invariant rule for [for_loop] when the body cannot fail. *)
Lemma for_loop_invariant {S : Type} (P : nat -> S -> World -> Prop)
    (body : nat -> S -> M S) (n : nat) :
  forall i s w,
    (forall k s w, (i <= k < i + n)%nat -> P k s w ->
                   exists s' w', body k s w = Ok s' w' /\ P (Datatypes.S k) s' w') ->
    P i s w ->
    exists s' w', for_loop i n body s w = Ok s' w' /\ P (i + n)%nat s' w'.
Proof.
  induction n as [|n IH]; intros i s w Hbody Hinit.
  - exists s, w. rewrite Nat.add_0_r. split; [reflexivity|assumption].
  - destruct (Hbody i s w) as (s1 & w1 & Hstep & Hnext); [lia|assumption|].
    destruct (IH (Datatypes.S i) s1 w1) as (s2 & w2 & Hrest & Hend).
    + intros k s' w' Hk. apply Hbody. lia.
    + assumption.
    + exists s2, w2. split.
      * cbn [for_loop]. unfold bind at 1. rewrite Hstep. exact Hrest.
      * replace (i + Datatypes.S n)%nat with (Datatypes.S i + n)%nat by lia.
        exact Hend.
Qed.

(** ** The instance generator: colours *)

Lemma to_uint32_to_int (z : Z) : to_uint32 (to_int z) = z mod 2 ^ 32.
Proof.
  unfold to_uint32, to_int.
  rewrite Zminus_mod, Zmod_mod, <- Zminus_mod.
  replace (z + 2 ^ 31 - 2 ^ 31) with z by lia. reflexivity.
Qed.

(** A channel shifted left by at least eight bits leaves the low byte of the
    colour alone. *)
Lemma shifted_channel_low_byte (channel k : Z) :
  8 <= k -> Z.land (to_uint32 (to_int (Z.shiftl channel k))) 0xFF = 0.
Proof.
  intros Hk. rewrite to_uint32_to_int.
  change 0xFF with (Z.ones 8). rewrite Z.land_ones by lia.
  rewrite Z.mod_mod_divide by (exists (2 ^ 24); reflexivity).
  rewrite Z.shiftl_mul_pow2 by lia.
  replace k with (8 + (k - 8)) by lia.
  rewrite Z.pow_add_r by lia.
  rewrite Z.mul_assoc, (Z.mul_comm channel), <- Z.mul_assoc, Z.mul_comm.
  apply Z_mod_mult.
Qed.

Lemma color_channel_low_byte (j : nat) (c : Z) (w : World) :
  exists c' w',
    color_channel j c w = Ok c' w' /\ Z.land c' 0xFF = Z.land c 0xFF /\
    win w' = win w /\ images w' = images w /\ next_image w' = next_image w /\
    trace w' = trace w.
Proof.
  unfold color_channel, bind, rand, ret. eexists _, _. split; [reflexivity|].
  split; [|repeat split].
  rewrite Z.land_lor_distr_l, shifted_channel_low_byte by lia.
  apply Z.lor_0_r.
Qed.

Lemma same_but_rand_refl w : same_but_rand w w.
Proof. repeat split. Qed.

Lemma same_but_rand_trans w1 w2 w3 :
  same_but_rand w1 w2 -> same_but_rand w2 w3 -> same_but_rand w1 w3.
Proof.
  intros (? & ? & ? & ?) (? & ? & ? & ?). repeat split; congruence.
Qed.

Lemma make_instance_ok (size i : nat) (w : World) :
  exists c w',
    make_instance size i w =
    Ok (mk_Instance (glm.mul instance_scale
                       (glm.mul (instance_rotation (instance_theta size i))
                                instance_translation)) c) w' /\
    Z.land c 0xFF = 0xFF /\ same_but_rand w w'.
Proof.
  unfold make_instance.
  destruct (for_loop_invariant
              (fun _ c w' => Z.land c 0xFF = 0xFF /\ same_but_rand w w')
              color_channel 3 0%nat 0xFF w) as (c & w' & Hloop & Hlow & Hsame).
  - intros k c w1 _ [Hlow Hsame].
    destruct (color_channel_low_byte k c w1)
      as (c' & w2 & Hstep & Hbyte & Hw & Hi & Hn & Ht).
    exists c', w2. split; [exact Hstep|]. split; [congruence|].
    apply (same_but_rand_trans _ w1); [assumption|]. repeat split; assumption.
  - split; [reflexivity|apply same_but_rand_refl].
  - exists c, w'. split; [|split; assumption].
    unfold bind at 1. rewrite Hloop. reflexivity.
Qed.

Lemma generate_instances_ok (size : nat) (w : World) :
  exists instances w',
    generate_instances size w = Ok instances w' /\
    length instances = size /\
    (forall i, (i < size)%nat ->
       exists c, instances !! i =
                 Some (mk_Instance
                         (glm.mul instance_scale
                            (glm.mul (instance_rotation (instance_theta size i))
                                     instance_translation)) c) /\
                 Z.land c 0xFF = 0xFF) /\
    same_but_rand w w'.
Proof.
  unfold generate_instances.
  destruct (for_loop_invariant
              (fun n (instances : list Instance) w' =>
                 length instances = size /\
                 (forall i, (i < n)%nat -> (i < size)%nat ->
                    exists c, instances !! i =
                              Some (mk_Instance
                                      (glm.mul instance_scale
                                         (glm.mul (instance_rotation
                                                     (instance_theta size i))
                                                  instance_translation)) c) /\
                              Z.land c 0xFF = 0xFF) /\
                 same_but_rand w w')
              (fun i instances =>
                 instance <- make_instance size i ;;
                 ret (<[i := instance]> instances))
              size 0%nat (replicate size indeterminate_Instance) w)
    as (instances & w' & Hloop & Hlen & Hall & Hsame).
  - intros k l w1 Hk (Hlen & Hdone & Hsame).
    destruct (make_instance_ok size k w1) as (c & w2 & Hmake & Hlow & Hsame2).
    eexists _, w2. split.
    { unfold bind at 1. rewrite Hmake. reflexivity. }
    split; [rewrite length_insert; exact Hlen|]. split.
    + intros i Hi Hsize. destruct (decide (i = k)) as [->|Hne].
      * exists c. split; [|exact Hlow].
        apply list_lookup_insert_eq. lia.
      * rewrite list_lookup_insert_ne by congruence. apply Hdone; lia.
    + apply (same_but_rand_trans _ w1); assumption.
  - split; [apply length_replicate|]. split; [intros i Hi; lia|].
    apply same_but_rand_refl.
  - exists instances, w'. split; [exact Hloop|]. split; [exact Hlen|].
    split; [|exact Hsame]. intros i Hi. apply Hall; lia.
Qed.

(** C9.  The generator returns exactly [size] instances, six for the array
    of [main], and whatever numbers [rand] produces, the low byte of every
    instance's colour is 0xFF. *)
Theorem generate_instances_count_and_alpha (size : nat) (w : World) :
  exists instances w',
    generate_instances size w = Ok instances w' /\
    length instances = size /\
    Forall (fun instance => Z.land (Color instance) 0xFF = 0xFF) instances.
Proof.
  destruct (generate_instances_ok size w) as (l & w' & Hgen & Hlen & Hall & _).
  exists l, w'. split; [exact Hgen|]. split; [exact Hlen|].
  apply Forall_lookup. intros i instance Hi.
  assert (Hlt : (i < size)%nat).
  { rewrite <- Hlen. eapply lookup_lt_Some. exact Hi. }
  destruct (Hall i Hlt) as (c & Hc & Hlow).
  rewrite Hc in Hi. injection Hi as <-. exact Hlow.
Qed.

(** ** Matrices *)

Lemma vec4_eq a b c d a' b' c' d' :
  a = a' -> b = b' -> c = c' -> d = d' ->
  glm.mk_vec4 a b c d = glm.mk_vec4 a' b' c' d'.
Proof. intros; subst; reflexivity. Qed.

Lemma mat4_eq a b c d a' b' c' d' :
  a = a' -> b = b' -> c = c' -> d = d' ->
  glm.mk_mat4 a b c d = glm.mk_mat4 a' b' c' d'.
Proof. intros; subst; reflexivity. Qed.

Ltac glm_unfold :=
  cbv [glm.mul glm.mul_vec glm.vec4_add glm.vec4_scale glm.vec4_of
       glm.col0 glm.col1 glm.col2 glm.col3 glm.x4 glm.y4 glm.z4 glm.w4
       glm.x3 glm.y3 glm.z3
       glm.set glm.get glm.set_column glm.column glm.vec4_set glm.vec4_get
       glm.diag scale_matrix translate_matrix rotate_y_matrix].

Lemma mul_vec_assoc a b v :
  glm.mul_vec (glm.mul a b) v = glm.mul_vec a (glm.mul_vec b v).
Proof.
  destruct a as [[] [] [] []], b as [[] [] [] []], v.
  glm_unfold. apply vec4_eq; ring.
Qed.

Lemma mul_assoc a b c : glm.mul (glm.mul a b) c = glm.mul a (glm.mul b c).
Proof.
  unfold glm.mul at 1 3. cbv [glm.col0 glm.col1 glm.col2 glm.col3].
  rewrite !mul_vec_assoc. reflexivity.
Qed.

(** ** The shader stages *)

(** C8.  For a vertex in slot 0 and an instance in slot 1 the vertex stage
    returns the four components of Projection * View * Model * vec4(Position, 1)
    (computed from the right, which is the same vector as applying the
    product of the three matrices), stores the colour of the instance in the
    working data and leaves the uniform block alone; the fragment stage run
    on that context returns this colour. *)
Theorem shader_stages_contract (vertex : Vertex) (instance : Instance)
    (context : shader_context) :
  exists position context',
    VertexShader [vertex_element vertex; instance_element instance] context =
    Some (position, context') /\
    position =
    glm.mul_vec (Projection (uniform_data context))
      (glm.mul_vec (View (uniform_data context))
         (glm.mul_vec (Model instance) (glm.vec4_of (Position vertex) 1))) /\
    position =
    glm.mul_vec (glm.mul (glm.mul (Projection (uniform_data context))
                                  (View (uniform_data context)))
                         (Model instance))
                (glm.vec4_of (Position vertex) 1) /\
    working_data context' = mk_WorkingData (Color instance) /\
    uniform_data context' = uniform_data context /\
    FragmentShader context' = Color instance.
Proof.
  eexists _, _. split; [reflexivity|].
  split; [reflexivity|]. split; [|repeat split].
  rewrite !mul_vec_assoc. reflexivity.
Qed.

(** ** The instance generator: transforms *)

Lemma instance_scale_eq : instance_scale = scale_matrix 0.25.
Proof.
  unfold instance_scale. cbv [fold_left seq]. glm_unfold.
  apply mat4_eq; apply vec4_eq; lra.
Qed.

Lemma instance_rotation_eq theta : instance_rotation theta = rotate_y_matrix theta.
Proof. reflexivity. Qed.

Lemma instance_translation_eq :
  instance_translation = translate_matrix (glm.mk_vec3 0 0 (-0.5)).
Proof. reflexivity. Qed.

Lemma instance_theta_eq size i :
  instance_theta size i = (2 * PI * INR i / INR size)%R.
Proof. unfold instance_theta, Rdiv. ring. Qed.

(** What [rotate_y_matrix] does: it fixes the Y axis and turns the XZ plane
    by the angle [t], keeping lengths. *)
Lemma rotate_y_matrix_is_rotation (t x y z : R) :
  glm.mul_vec (rotate_y_matrix t) (glm.mk_vec4 0 1 0 0) = glm.mk_vec4 0 1 0 0 /\
  glm.mul_vec (rotate_y_matrix t) (glm.mk_vec4 x y z 1) =
  glm.mk_vec4 (x * cos t - z * sin t) y (x * sin t + z * cos t) 1 /\
  ((x * cos t - z * sin t) ^ 2 + (x * sin t + z * cos t) ^ 2 = x ^ 2 + z ^ 2)%R /\
  (x * (x * cos t - z * sin t) + z * (x * sin t + z * cos t) =
   (x ^ 2 + z ^ 2) * cos t)%R.
Proof.
  split; [|split; [|split]].
  - glm_unfold. apply vec4_eq; ring.
  - glm_unfold. apply vec4_eq; ring.
  - pose proof (sin2_cos2 t) as H. unfold Rsqr in H.
    replace ((x * cos t - z * sin t) ^ 2 + (x * sin t + z * cos t) ^ 2)%R
      with ((x ^ 2 + z ^ 2) * (sin t * sin t + cos t * cos t))%R by ring.
    rewrite H. ring.
  - ring.
Qed.

(** Decimal literals as fractions, for [ring] and [field]. *)
Lemma decimal_025 : 0.25%R = (1 / 4)%R.
Proof. lra. Qed.

Lemma decimal_05 : 0.5%R = (1 / 2)%R.
Proof. lra. Qed.

Lemma decimal_0125 : 0.125%R = (1 / 8)%R.
Proof. lra. Qed.

Lemma decimal_01 : 0.1%R = (1 / 10)%R.
Proof. lra. Qed.

Lemma decimal_neg_05 : (-0.5)%R = (- (1 / 2))%R.
Proof. lra. Qed.

Lemma decimal_neg_0125 : (-0.125)%R = (- (1 / 8))%R.
Proof. lra. Qed.

Ltac real_field :=
  rewrite ?decimal_025, ?decimal_05, ?decimal_0125, ?decimal_01,
    ?decimal_neg_05, ?decimal_neg_0125; field.

Lemma model_on_point (t x y z : R) :
  glm.mul_vec
    (glm.mul (scale_matrix 0.25)
       (glm.mul (rotate_y_matrix t) (translate_matrix (glm.mk_vec3 0 0 (-0.5)))))
    (glm.mk_vec4 x y z 1) =
  glm.mk_vec4 (0.25 * (x * cos t - (z - 0.5) * sin t)) (0.25 * y)
              (0.25 * (x * sin t + (z - 0.5) * cos t)) 1.
Proof. glm_unfold. apply vec4_eq; real_field. Qed.

(** The hand-built rotation is glm's rotation about +Y by the opposite
    angle: the program turns x towards z, glm's right-handed convention
    turns z towards x. *)
Lemma rotate_y_matrix_glm (t : R) : rotate_y_matrix t = glm.rotate_y (- t).
Proof.
  unfold rotate_y_matrix, glm.rotate_y. rewrite cos_neg, sin_neg, Ropp_involutive.
  reflexivity.
Qed.

(** With the factors in the other order every instance would sit on the
    same, unrotated offset. *)
Lemma translate_then_rotate_origin (t : R) :
  glm.mul_vec
    (glm.mul (scale_matrix 0.25)
       (glm.mul (translate_matrix (glm.mk_vec3 0 0 (-0.5))) (rotate_y_matrix t)))
    (glm.mk_vec4 0 0 0 1) =
  glm.mk_vec4 0 0 (- 0.125) 1.
Proof. glm_unfold. apply vec4_eq; real_field. Qed.

(** C5.  Instance [i] of [size] gets the model matrix
    scale(0.25) * (rotateY(theta) * translate(0, 0, -0.5)) with
    theta = 2 pi i / size, where rotateY(theta) fixes the Y axis and takes
    (x, y, z) to (x cos theta - z sin theta, y, x sin theta + z cos theta).
    Applied to a point, the matrix translates it, then rotates the
    translated point, then scales; so the origin of the instance lands on
    the rotated offset 0.25 * rotateY(theta) (0, 0, -0.5), which is
    (0.125 sin theta, 0, -0.125 cos theta). *)
Theorem instance_model_transform (size i : nat) (w : World) :
  (i < size)%nat ->
  let theta := (2 * PI * INR i / INR size)%R in
  let offset := glm.mk_vec3 0 0 (-0.5) in
  glm.mul_vec (rotate_y_matrix theta) (glm.mk_vec4 0 1 0 0) = glm.mk_vec4 0 1 0 0 /\
  (forall x y z,
     glm.mul_vec (rotate_y_matrix theta) (glm.mk_vec4 x y z 1) =
     glm.mk_vec4 (x * cos theta - z * sin theta) y
                 (x * sin theta + z * cos theta) 1) /\
  exists instances w' c,
    generate_instances size w = Ok instances w' /\
    instances !! i =
    Some (mk_Instance
            (glm.mul (scale_matrix 0.25)
               (glm.mul (rotate_y_matrix theta) (translate_matrix offset))) c) /\
    (forall instance, instances !! i = Some instance ->
       (forall x y z,
          glm.mul_vec (Model instance) (glm.mk_vec4 x y z 1) =
          glm.mul_vec (scale_matrix 0.25)
            (glm.mul_vec (rotate_y_matrix theta) (glm.mk_vec4 x y (z - 0.5) 1))) /\
       glm.mul_vec (Model instance) (glm.mk_vec4 0 0 0 1) =
       glm.mul_vec (scale_matrix 0.25)
         (glm.mul_vec (rotate_y_matrix theta) (glm.vec4_of offset 1)) /\
       glm.mul_vec (Model instance) (glm.mk_vec4 0 0 0 1) =
       glm.mk_vec4 (0.125 * sin theta) 0 (- 0.125 * cos theta) 1).
Proof.
  intros Hi theta offset.
  destruct (generate_instances_ok size w) as (l & w' & Hgen & _ & Hall & _).
  destruct (Hall i Hi) as (c & Hc & _).
  rewrite instance_scale_eq, instance_rotation_eq, instance_translation_eq,
    instance_theta_eq in Hc.
  split; [apply (rotate_y_matrix_is_rotation theta 0 0 0)|].
  split; [intros x y z; apply (rotate_y_matrix_is_rotation theta x y z)|].
  exists l, w', c. split; [exact Hgen|]. split; [exact Hc|].
  intros instance Hinst. rewrite Hc in Hinst. injection Hinst as <-.
  cbn [Model]. split; [|split].
  - intros x y z. rewrite model_on_point. subst theta offset.
    glm_unfold. apply vec4_eq; real_field.
  - rewrite model_on_point. subst theta offset.
    glm_unfold. apply vec4_eq; real_field.
  - rewrite model_on_point. subst theta. apply vec4_eq; real_field.
Qed.

Lemma instance_model_transform_witness :
  exists instances w' c,
    generate_instances 6 (boot (fun _ => 0)) = Ok instances w' /\
    instances !! 3%nat =
    Some (mk_Instance
            (glm.mul (scale_matrix 0.25)
               (glm.mul (rotate_y_matrix (2 * PI * INR 3 / INR 6))
                        (translate_matrix (glm.mk_vec3 0 0 (-0.5))))) c).
Proof.
  destruct (instance_model_transform 6 3 (boot (fun _ => 0)))
    as (_ & _ & l & w' & c & Hgen & Hc & _).
  - lia.
  - exists l, w', c. split; [exact Hgen|exact Hc].
Defined.

(** ** One frame *)

(** [frame] unfolded: the only steps that can fail are the validation of
    the depth buffer and the clear. *)
Lemma frame_eq (env : FrameEnv) (st : Locals) (w : World) :
  frame env st w =
  match ValidateDepthBuffer (window st)
          (default nullptr
             (<[0%nat := frame_backbuffer env]> (attachments (fb st)) !! 1%nat))
          (frame_start env w) with
  | Abort e w2 => Abort e w2
  | Ok depthbuffer w2 =>
      let st' := frame_locals env st depthbuffer in
      if perspective_passes (assert_live st) (framebuffer_size (polled env))
      then match ClearFramebuffer (rast st') (fb st') clearValues w2 with
           | Abort e w3 => Abort e w3
           | Ok _ w3 =>
               Ok st' (log (log (world_of (RenderIndexed (rast st') (call st') w3))
                                [imgui_render_call (fb st')])
                           [window_swap_buffers_call])
           end
      else Abort assertion_failure w2
  end.
Proof.
  unfold frame.
  cbv [bind Window_Poll window_poll emit Window_GetFramebufferSize get_window
       Window_GetBackbuffer ret win log].
  fold (frame_backbuffer env).
  change (mk_World (polled env) (images w) (next_image w) (rand_draws w)
            (rand_next w)
            (((trace w ++ [window_poll_call]) ++ [imgui_new_frame]) ++
             [imgui_render_frame]))
    with (frame_start env w).
  destruct (ValidateDepthBuffer _ _ _) as [depthbuffer w2|e w2]; [|reflexivity].
  cbv [fb_width fb_height attachment_count attachments].
  unfold perspective_passes, glm.perspective.
  destruct (assert_live st && _); cbv [negb throw ret]; [reflexivity|].
  change (glm.exact (float_quotient ?a ?b))
    with (IZR (Z.of_N a) / IZR (Z.of_N b))%R.
  fold (frame_locals env st depthbuffer).
  destruct (ClearFramebuffer _ _ _ _) as [[] w3|e w3]; reflexivity.
Qed.

(** ** The camera *)

(** C3, as the program has it.  The camera block takes the cosine and sine,
    the elevation cosTheta * pi / 4, the distance |cosTheta| * 5 and the eye
    position from the angle the frame starts with; the angle advanced by
    delta * 0.1 is what the next frame starts with.  The frame looks from
    that eye position at the origin with +Y up. *)
Theorem camera_derives_from_angle_before_advance (previous t1 theta : R) :
  let cam := camera previous t1 theta in
  let d := (Rabs (cos theta) * 5)%R in
  let elevation := (cos theta * (PI / 4))%R in
  delta cam = (t1 - previous)%R /\
  cameraTheta' cam = (theta + delta cam * 0.1)%R /\
  cosTheta cam = cos theta /\ sinTheta cam = sin theta /\
  phi cam = elevation /\ cameraDistance cam = d /\
  eye cam = glm.mk_vec3 (cos theta * cos elevation * d) (sin elevation * d)
                        (sin theta * cos elevation * d) /\
  forall (env : FrameEnv) (st : Locals) (w : World),
    match frame env st w with
    | Ok st' _ =>
        let cam := camera (t0 st) (now env) (cameraTheta st) in
        cameraTheta st' = cameraTheta' cam /\
        t0 st' = now env /\
        View (uniforms st') =
        glm.lookAt (eye cam) (glm.mk_vec3 0 0 0) (glm.mk_vec3 0 1 0)
    | Abort _ _ => True
    end.
Proof.
  intros cam d elevation.
  assert (Hphi : phi cam = elevation).
  { subst cam elevation. cbn [camera phi]. field. }
  repeat split; try reflexivity; try exact Hphi.
  - subst cam d elevation. cbn [camera eye].
    replace (cos theta * PI / 4)%R with (cos theta * (PI / 4))%R by field.
    reflexivity.
  - intros env st w. rewrite frame_eq.
    destruct (ValidateDepthBuffer _ _ _) as [depthbuffer w2|e w2]; [|exact I].
    cbv zeta.
    destruct (perspective_passes _ _); [|exact I].
    destruct (ClearFramebuffer _ _ _ _) as [[] w3|e w3]; [|exact I].
    repeat split.
Qed.

(** C3, as the claim has it, fails.  Start at angle 0 with a frame that
    takes 10 pi seconds: the angle advances to pi, whose cosine is -1, but
    the block works with cosine 1, and the eye is not where the advanced
    angle would put it. *)
Lemma camera_advance_first_counterexample :
  let cam := camera 0 (10 * PI) 0 in
  cameraTheta' cam = PI /\
  cosTheta cam = 1%R /\
  cos (cameraTheta' cam) = (-1)%R /\
  cosTheta cam <> cos (cameraTheta' cam) /\
  eye cam <> eye (camera_advance_first 0 (10 * PI) 0).
Proof.
  intros cam.
  assert (Htheta : cameraTheta' cam = PI).
  { subst cam. cbn [camera cameraTheta']. rewrite decimal_01. field. }
  assert (Hcos : cosTheta cam = 1%R).
  { subst cam. cbn [camera cosTheta]. apply cos_0. }
  split; [exact Htheta|]. split; [exact Hcos|].
  rewrite Htheta, Hcos, cos_PI.
  split; [reflexivity|]. split; [lra|].
  assert (Hpos : (0 < cos (PI / 4))%R).
  { rewrite cos_PI4. apply Rdiv_lt_0_compat; [lra|].
    apply sqrt_lt_R0. lra. }
  subst cam. unfold camera, camera_advance_first. cbn [eye].
  replace (0 + (10 * PI - 0) * 0.1)%R with PI by (rewrite decimal_01; field).
  rewrite cos_0, cos_PI.
  replace (1 * PI / 4)%R with (PI / 4)%R by field.
  replace (-1 * (PI / 4))%R with (- (PI / 4))%R by field.
  assert (Habs : Rabs (-1) = 1%R).
  { unfold Rabs. destruct (Rcase_abs (-1)); lra. }
  rewrite cos_neg, Rabs_R1, Habs.
  intros Heq. injection Heq as Hx _ _. lra.
Qed.






(** ** Validation of the depth buffer *)

Lemma events_since_app (tr evs : list event) : events_since tr (tr ++ evs) = evs.
Proof. unfold events_since. apply drop_app_length. Qed.

Lemma allocations_app (tr evs : list event) :
  allocations (tr ++ evs) = (allocations tr + allocations evs)%nat.
Proof. unfold allocations. rewrite List.filter_app, length_app. reflexivity. Qed.

Section Validate.
Variable window : Window.

Lemma ValidateDepthBuffer_eq (p : image_ptr) (w : World) :
  ValidateDepthBuffer window p w =
  match p with
  | nullptr => Ok (allocated_ptr (next_image w)) (reallocated w p)
  | _ =>
      match deref w p with
      | None => Abort null_dereference w
      | Some img =>
          if (width img =? fst (framebuffer_size (win w)))%N &&
             (height img =? snd (framebuffer_size (win w)))%N
          then Ok p w
          else Ok (allocated_ptr (next_image w)) (reallocated w p)
      end
  end.
Proof.
  unfold ValidateDepthBuffer, reallocated.
  cbv [bind Window_GetFramebufferSize get_window ret IsDepthBufferValid load].
  destruct p as [| |id]; [reflexivity| |];
    (destruct (deref w _) as [img|]; [|reflexivity]);
    destruct (_ && _); reflexivity.
Qed.

Lemma reallocated_trace (p : image_ptr) (w : World) :
  trace (reallocated w p) =
  trace w ++ [image_free_call p;
              image_allocate_call (fst (framebuffer_size (win w)))
                (snd (framebuffer_size (win w))) IMAGE_FORMAT_DEPTH
                (allocated_ptr (next_image w))].
Proof. unfold reallocated. cbn. rewrite <- app_assoc. reflexivity. Qed.

Lemma reallocated_win (p : image_ptr) (w : World) : win (reallocated w p) = win w.
Proof. reflexivity. Qed.

Lemma reallocated_next (p : image_ptr) (w : World) :
  next_image (reallocated w p) = Pos.succ (next_image w).
Proof. reflexivity. Qed.

Lemma reallocated_images (p : image_ptr) (w : World) :
  images (reallocated w p) =
  <[next_image w := mk_image (fst (framebuffer_size (win w)))
                             (snd (framebuffer_size (win w))) IMAGE_FORMAT_DEPTH]>
    (match p with
     | allocated_ptr id => delete id (images w)
     | _ => images w
     end).
Proof. reflexivity. Qed.

Lemma reallocated_deref_new (p : image_ptr) (w : World) :
  deref (reallocated w p) (allocated_ptr (next_image w)) =
  Some (mk_image (fst (framebuffer_size (win w)))
                 (snd (framebuffer_size (win w))) IMAGE_FORMAT_DEPTH).
Proof.
  cbn [deref]. rewrite reallocated_images. apply lookup_insert_eq.
Qed.

Lemma reallocated_deref_backbuffer (p : image_ptr) (w : World) :
  deref (reallocated w p) backbuffer_ptr = deref w backbuffer_ptr.
Proof. reflexivity. Qed.

Lemma reallocated_allocator_ok (p : image_ptr) (w : World) :
  allocator_ok w -> allocator_ok (reallocated w p).
Proof.
  intros Hok id img. rewrite reallocated_images, reallocated_next.
  intros Hlook. apply lookup_insert_Some in Hlook as [[<- _]|[Hne Hlook]].
  - lia.
  - assert (images w !! id = Some img) as Hold.
    { destruct p; try exact Hlook.
      apply lookup_delete_Some in Hlook as [_ Hlook]. exact Hlook. }
    apply Hok in Hold. lia.
Qed.

(** For a depth attachment that is null or live the validation cannot
    fail, and it reallocates exactly when [IsDepthBufferValid] says no. *)
Lemma IsDepthBufferValid_eq (p : image_ptr) (w : World) :
  depth_ok w p ->
  IsDepthBufferValid p (fst (framebuffer_size (win w)))
    (snd (framebuffer_size (win w))) w = Ok (depth_buffer_valid w p) w.
Proof.
  unfold IsDepthBufferValid, depth_buffer_valid, bind, load, ret.
  destruct p as [| |id]; cbn [depth_ok]; [reflexivity|intros []|].
  intros [img Himg]. cbn [deref]. rewrite Himg. reflexivity.
Qed.

Lemma ValidateDepthBuffer_ok (p : image_ptr) (w : World) :
  depth_ok w p ->
  ValidateDepthBuffer window p w =
  if depth_buffer_valid w p then Ok p w
  else Ok (allocated_ptr (next_image w)) (reallocated w p).
Proof.
  intros Hp. rewrite ValidateDepthBuffer_eq. unfold depth_buffer_valid.
  destruct p as [| |id]; cbn [depth_ok] in Hp; [reflexivity|destruct Hp|].
  destruct Hp as [img Himg]. cbn [deref]. rewrite Himg. reflexivity.
Qed.

(** What holds after the validation. *)
Lemma ValidateDepthBuffer_post (p : image_ptr) (w : World) :
  depth_ok w p ->
  exists p' w' img,
    ValidateDepthBuffer window p w = Ok p' w' /\
    win w' = win w /\
    depth_ok w' p' /\
    deref w' p' = Some img /\
    width img = fst (framebuffer_size (win w)) /\
    height img = snd (framebuffer_size (win w)) /\
    trace w' =
    trace w ++
    (if depth_buffer_valid w p then []
     else [image_free_call p;
           image_allocate_call (fst (framebuffer_size (win w)))
             (snd (framebuffer_size (win w))) IMAGE_FORMAT_DEPTH p']).
Proof.
  intros Hp. rewrite (ValidateDepthBuffer_ok p w Hp).
  destruct (depth_buffer_valid w p) eqn:Hvalid.
  - unfold depth_buffer_valid in Hvalid.
    destruct (deref w p) as [img|] eqn:Himg; [|discriminate].
    apply andb_true_iff in Hvalid as [Hw Hh]. apply N.eqb_eq in Hw, Hh.
    exists p, w, img. rewrite app_nil_r. repeat split; assumption.
  - eexists (allocated_ptr (next_image w)), (reallocated w p), _.
    split; [reflexivity|]. split; [reflexivity|].
    split; [|split; [apply reallocated_deref_new|]].
    + cbn [depth_ok]. rewrite reallocated_images, lookup_insert_eq. eauto.
    + split; [reflexivity|]. split; [reflexivity|]. apply reallocated_trace.
Qed.

(** C7.  Validation from the absent state allocates once (after passing the
    null pointer to [image_free]); validating again at the same size changes
    nothing, so it allocates nothing.  The second call is a no-op after any
    validation that succeeded, whatever state the first one started in. *)
Theorem ValidateDepthBuffer_idempotent (w : World) :
  (exists p1 w1,
     ValidateDepthBuffer window nullptr w = Ok p1 w1 /\
     events_since (trace w) (trace w1) =
     [image_free_call nullptr;
      image_allocate_call (fst (framebuffer_size (win w)))
        (snd (framebuffer_size (win w))) IMAGE_FORMAT_DEPTH p1] /\
     allocations (trace w1) = Datatypes.S (allocations (trace w)) /\
     ValidateDepthBuffer window p1 w1 = Ok p1 w1 /\
     allocations (trace (world_of (ValidateDepthBuffer window p1 w1))) =
     allocations (trace w1)) /\
  (forall p,
     match ValidateDepthBuffer window p w with
     | Ok p1 w1 => ValidateDepthBuffer window p1 w1 = Ok p1 w1
     | Abort _ _ => True
     end).
Proof.
  assert (Hagain : forall p,
             ValidateDepthBuffer window (allocated_ptr (next_image w))
               (reallocated w p) =
             Ok (allocated_ptr (next_image w)) (reallocated w p)).
  { intros p. rewrite ValidateDepthBuffer_eq, reallocated_deref_new.
    cbn [width height]. rewrite reallocated_win, !N.eqb_refl. reflexivity. }
  split.
  - exists (allocated_ptr (next_image w)), (reallocated w nullptr).
    rewrite ValidateDepthBuffer_eq, Hagain.
    split; [reflexivity|].
    split; [rewrite reallocated_trace; apply events_since_app|].
    split; [|split; reflexivity].
    rewrite reallocated_trace, allocations_app.
    cbn [allocations List.filter is_allocation length]. lia.
  - intros p. rewrite ValidateDepthBuffer_eq.
    destruct p as [| |id]; [apply Hagain| |].
    + destruct (deref w backbuffer_ptr) as [img|] eqn:Himg; [|exact I].
      destruct (_ && _) eqn:Hdims; [|apply Hagain].
      rewrite ValidateDepthBuffer_eq, Himg, Hdims. reflexivity.
    + destruct (deref w (allocated_ptr id)) as [img|] eqn:Himg; [|exact I].
      destruct (_ && _) eqn:Hdims; [|apply Hagain].
      rewrite ValidateDepthBuffer_eq, Himg, Hdims. reflexivity.
Qed.

(** C6.  Let the validation run at the size the window reports, then let
    the window be resized, then run it again.  The second run releases the
    first run's depth image, once, and allocates once; its result is a
    different image, of the new size, and the old one is gone. *)
Theorem ValidateDepthBuffer_resize (p0 : image_ptr) (w0 : World)
    (resized : window_t) :
  depth_ok w0 p0 ->
  allocator_ok w0 ->
  framebuffer_size resized <> framebuffer_size (win w0) ->
  exists p1 w1 imgA p2 w2,
    ValidateDepthBuffer window p0 w0 = Ok p1 w1 /\
    deref w1 p1 = Some imgA /\
    (width imgA, height imgA) = framebuffer_size (win w0) /\
    ValidateDepthBuffer window p1 (world_of (window_poll resized w1)) = Ok p2 w2 /\
    events_since (trace (world_of (window_poll resized w1))) (trace w2) =
    [image_free_call p1;
     image_allocate_call (fst (framebuffer_size resized))
       (snd (framebuffer_size resized)) IMAGE_FORMAT_DEPTH p2] /\
    deref w2 p2 = Some (mk_image (fst (framebuffer_size resized))
                                 (snd (framebuffer_size resized))
                                 IMAGE_FORMAT_DEPTH) /\
    p2 <> p1 /\
    deref w2 p1 = None.
Proof.
  intros Hp0 Hfresh Hsize.
  destruct (ValidateDepthBuffer_post p0 w0 Hp0)
    as (p1 & w1 & imgA & Hrun1 & Hwin1 & Hp1 & HimgA & HwA & HhA & Htrace1).
  assert (Hfresh1 : allocator_ok w1).
  { rewrite (ValidateDepthBuffer_ok p0 w0 Hp0) in Hrun1.
    destruct (depth_buffer_valid w0 p0); injection Hrun1 as <- <-;
      [exact Hfresh|apply reallocated_allocator_ok; exact Hfresh]. }
  set (w1' := world_of (window_poll resized w1)).
  assert (Hp1' : depth_ok w1' p1) by exact Hp1.
  assert (HimgA' : deref w1' p1 = Some imgA).
  { destruct p1 as [| |id1]; [discriminate|destruct Hp1|exact HimgA]. }
  assert (Hinvalid : depth_buffer_valid w1' p1 = false).
  { unfold depth_buffer_valid. rewrite HimgA'.
    apply andb_false_iff.
    destruct (N.eqb_spec (width imgA) (fst (framebuffer_size (win w1'))))
      as [Hw|Hw]; [|left; reflexivity].
    destruct (N.eqb_spec (height imgA) (snd (framebuffer_size (win w1'))))
      as [Hh|Hh]; [|right; reflexivity].
    exfalso. apply Hsize. change (win w1') with resized in Hw, Hh.
    rewrite HwA in Hw. rewrite HhA in Hh.
    destruct (framebuffer_size resized), (framebuffer_size (win w0)).
    cbn [fst snd] in *. congruence. }
  exists p1, w1, imgA, (allocated_ptr (next_image w1')), (reallocated w1' p1).
  fold w1'.
  split; [exact Hrun1|]. split; [exact HimgA|].
  split.
  { rewrite HwA, HhA. destruct (framebuffer_size (win w0)); reflexivity. }
  split.
  { rewrite (ValidateDepthBuffer_ok p1 w1' Hp1'), Hinvalid. reflexivity. }
  rewrite reallocated_trace, events_since_app.
  split; [reflexivity|]. split; [apply reallocated_deref_new|].
  destruct p1 as [| |id1]; [discriminate|destruct Hp1|].
  assert (Hlt : (id1 < next_image w1)%positive).
  { apply (Hfresh1 id1 imgA). exact HimgA. }
  split; [intros Heq; injection Heq as Heq; lia|].
  cbn [deref]. rewrite reallocated_images.
  change (next_image w1') with (next_image w1).
  rewrite lookup_insert_ne by lia. apply lookup_delete_eq.
Qed.

End Validate.

(** ** The frame loop *)

Lemma attachments_two (l : list image_ptr) (a b : image_ptr) :
  length l = 2%nat -> <[1%nat := b]> (<[0%nat := a]> l) = [a; b].
Proof.
  destruct l as [|x [|y [|z l]]]; cbn; intros H; try discriminate. reflexivity.
Qed.


(** One frame from a state with the loop invariant, whatever the window
    reports: the validation succeeds and leaves a depth image of the
    reported size; then the frame stops at the assertion of
    [glm::perspective] or runs to its end, with these calls. *)
Lemma frame_runs (env : FrameEnv) (st : Locals) (w : World) :
  loop_invariant st w ->
  exists depthbuffer w2 d,
    let st' := frame_locals env st depthbuffer in
    let size := framebuffer_size (polled env) in
    ValidateDepthBuffer (window st) (attachment st 1) (frame_start env w) =
    Ok depthbuffer w2 /\
    win w2 = polled env /\
    deref w2 depthbuffer = Some d /\
    (width d, height d) = size /\
    attachments (fb st') = [frame_backbuffer env; depthbuffer] /\
    map (deref w2) (attachments (fb st')) = [backbuffer (polled env); Some d] /\
    trace w2 =
    trace w ++
    frame_prefix (validation_events (frame_start env w) (attachment st 1)
                    depthbuffer) /\
    loop_invariant st' w2 /\
    frame env st w =
    if perspective_passes (assert_live st) size
    then Ok st' (log w2 (frame_suffix st' [backbuffer (polled env); Some d]))
    else Abort assertion_failure w2.
Proof.
  intros (Hcount & Hlen & Hdepth).
  set (start := frame_start env w). set (old := attachment st 1).
  fold old in Hdepth.
  assert (Hold : default nullptr
                   (<[0%nat := frame_backbuffer env]> (attachments (fb st)) !! 1%nat)
                 = old).
  { rewrite list_lookup_insert_ne by discriminate. reflexivity. }
  destruct (ValidateDepthBuffer_post (window st) old start Hdepth)
    as (p & w2 & d & Hrun & Hwin & Hp & Hd & Hdw & Hdh & Htrace).
  change (win start) with (polled env) in Hwin, Hdw, Hdh, Htrace.
  assert (Hatt : attachments (fb (frame_locals env st p)) =
                 [frame_backbuffer env; p]).
  { cbn [frame_locals fb attachments]. apply attachments_two, Hlen. }
  assert (Htargets : map (deref w2) (attachments (fb (frame_locals env st p))) =
                     [backbuffer (polled env); Some d]).
  { rewrite Hatt. cbn [map]. rewrite Hd. f_equal.
    unfold frame_backbuffer.
    destruct (backbuffer (polled env)) eqn:Hbb; [|reflexivity].
    cbn [deref]. rewrite Hwin. exact Hbb. }
  exists p, w2, d. cbv zeta.
  split; [exact Hrun|]. split; [exact Hwin|]. split; [exact Hd|].
  split; [rewrite Hdw, Hdh; destruct (framebuffer_size (polled env)); reflexivity|].
  split; [exact Hatt|]. split; [exact Htargets|].
  split.
  { rewrite Htrace. unfold frame_prefix, validation_events, start, frame_start, log.
    cbn [trace world_of window_poll win]. rewrite <- !app_assoc. reflexivity. }
  split.
  { split; [exact Hcount|]. split; [rewrite Hatt; reflexivity|].
    unfold attachment. rewrite Hatt. cbn [lookup list_lookup default].
    destruct p as [| |id]; [exact I|destruct Hp|exact Hp]. }
  rewrite frame_eq, Hold. fold start. rewrite Hrun. cbv zeta.
  destruct (perspective_passes _ _); [|reflexivity].
  rewrite ClearFramebuffer_eq.
  replace (attachment_count (fb (frame_locals env st p))) with 2%N
    by (symmetry; exact Hcount).
  change (N.of_nat (length clearValues) =? 2)%N with true. cbv iota.
  unfold RenderIndexed, render_indexed, emit. cbn [world_of].
  cbn [call call_framebuffer].
  change (map (deref (log w2 ?evs)) ?l) with (map (deref w2) l).
  rewrite Htargets.
  unfold frame_suffix, log. cbn [win images next_image rand_draws rand_next trace].
  rewrite <- !app_assoc. reflexivity.
Qed.




(** ** The whole program *)

(** [main] when the set-up fails: the window first, then the rasterizer. *)
Lemma main_without_window (env : Environment) (draws : nat -> Z) :
  window_created env = None ->
  main env (boot draws) =
  Abort null_dereference (log (boot draws) (take 3 (setup_events env))).
Proof.
  intros Hwin. unfold main.
  cbv [bind Rasterizer_Create rasterizer_create Window_Create window_create
       emit ret throw].
  rewrite Hwin. destruct (rasterizer_created env); reflexivity.
Qed.

Lemma main_without_rasterizer (env : Environment) (draws : nat -> Z)
    (created : window_t) :
  window_created env = Some created ->
  rasterizer_created env = false ->
  main env (boot draws) =
  Abort null_dereference
    (mk_World created ∅ 1%positive draws 0 (take 4 (setup_events env))).
Proof.
  intros Hwin Hrast. unfold main.
  cbv [bind Rasterizer_Create rasterizer_create Window_Create window_create
       emit ret throw ImGuiRenderer_new Window_InitImGui].
  rewrite Hwin, Hrast. reflexivity.
Qed.

(** [main] when the set-up succeeds: the instances are generated in the
    world of the set-up, the loop is entered with the initial locals, and
    the teardown follows if the loop is left. *)
Lemma main_setup (env : Environment) (draws : nat -> Z) (created : window_t) :
  rasterizer_created env = true ->
  window_created env = Some created ->
  exists insts w1,
    generate_instances 6 (setup_world env draws created) = Ok insts w1 /\
    length insts = 6%nat /\
    Forall (fun instance => Z.land (Color instance) 0xFF = 0xFF) insts /\
    win w1 = created /\ images w1 = ∅ /\ trace w1 = setup_events env /\
    loop_invariant (initial_locals env insts) w1 /\
    holds None (initial_locals env insts) w1 /\
    main env (boot draws) = main_after_setup env insts w1.
Proof.
  intros Hrast Hwin.
  destruct (generate_instances_ok 6 (setup_world env draws created))
    as (insts & w1 & Hgen & Hlen & Hall & (Hw1 & Hi1 & Hn1 & Ht1)).
  exists insts, w1.
  split; [exact Hgen|]. split; [exact Hlen|].
  split.
  { apply Forall_lookup. intros i instance Hi.
    assert (Hlt : (i < 6)%nat).
    { rewrite <- Hlen. eapply lookup_lt_Some. exact Hi. }
    destruct (Hall i Hlt) as (c & Hc & Hlow).
    rewrite Hc in Hi. injection Hi as <-. exact Hlow. }
  split; [exact Hw1|]. split; [exact Hi1|]. split; [exact Ht1|].
  split; [split; [reflexivity|]; split; [reflexivity|exact I]|].
  split; [split; [reflexivity|exact Hi1]|].
  unfold main.
  cbv [bind Rasterizer_Create rasterizer_create Window_Create window_create
       emit ret throw ImGuiRenderer_new Window_InitImGui].
  rewrite Hwin, Hrast. cbv beta iota.
  match goal with
  | |- context [generate_instances 6 ?w0] =>
      change w0 with (setup_world env draws created)
  end.
  rewrite Hgen. cbv beta iota.
  match goal with
  | |- context [main_loop (frames env) ?st0 w1] =>
      change st0 with (initial_locals env insts)
  end.
  unfold main_after_setup.
  destruct (main_loop (frames env) (initial_locals env insts) w1)
    as [[st' left] w2|e w2]; [|reflexivity].
  cbv beta iota. cbn [snd fst].
  destruct left; [|reflexivity].
  cbv [image_free ImGuiRenderer_destroy Window_destroy Rasterizer_destroy emit log].
  cbn [win images next_image rand_draws rand_next trace].
  unfold torn_down, teardown_events. rewrite <- !app_assoc. reflexivity.
Qed.

(** The outcome of the loop of [main], and with it of [main], once the
    set-up has succeeded. *)
Lemma main_after_setup_eq (env : Environment) (insts : list Instance)
    (w1 : World) (st' : Locals) (w' : World) (closed : bool) :
  main_loop (frames env) (initial_locals env insts) w1 =
  (if aborts (s_IsDebug env) closed (frames env)
   then Abort assertion_failure w'
   else Ok (st', close_seen closed (frames env)) w') ->
  main_after_setup env insts w1 =
  if aborts (s_IsDebug env) closed (frames env)
  then Abort assertion_failure w'
  else if close_seen closed (frames env)
       then Ok (Some 0) (torn_down st' w')
       else Ok None w'.
Proof.
  intros Hloop. unfold main_after_setup. rewrite Hloop.
  destruct (aborts _ _ _); [reflexivity|].
  destruct (close_seen _ _); reflexivity.
Qed.







Lemma ValidateDepthBuffer_resize_witness :
  exists p1 w1 p2 w2,
    ValidateDepthBuffer (mk_Window window_ptr) nullptr sample_world = Ok p1 w1 /\
    ValidateDepthBuffer (mk_Window window_ptr) p1
      (world_of (window_poll (sample_surface 800 600) w1)) = Ok p2 w2 /\
    deref w2 p2 = Some (mk_image 800 600 IMAGE_FORMAT_DEPTH) /\
    p2 <> p1.
Proof.
  destruct (ValidateDepthBuffer_resize (mk_Window window_ptr) nullptr
              sample_world (sample_surface 800 600))
    as (p1 & w1 & imgA & p2 & w2 & H1 & _ & _ & H2 & _ & H3 & H4 & _).
  - exact I.
  - intros id img H. cbn in H. rewrite lookup_empty in H. discriminate.
  - discriminate.
  - exists p1, w1, p2, w2. repeat split; assumption.
Defined.

(** ** The sample run *)

(** The window is resized from 1600x900 to 800x600 between the two frames:
    the first frame allocates the depth image, the second releases it and
    allocates another, and each draw has a depth target of the size the
    window has in its frame. *)
Example sample_run_allocator_calls :
  List.filter is_allocator_call
    (trace (world_of (main sample_environment (boot (fun _ => 0))))) =
  [ image_free_call nullptr;
    image_allocate_call 1600 900 IMAGE_FORMAT_DEPTH (allocated_ptr 1);
    image_free_call (allocated_ptr 1);
    image_allocate_call 800 600 IMAGE_FORMAT_DEPTH (allocated_ptr 2) ].
Proof. vm_compute. reflexivity. Qed.

Example sample_run_depth_sizes :
  draw_depth_sizes (trace (world_of (main sample_environment (boot (fun _ => 0))))) =
  [ Some (1600, 900)%N; Some (800, 600)%N ].
Proof. vm_compute. reflexivity. Qed.

Example sample_run_instance_counts :
  draw_instance_counts
    (trace (world_of (main sample_environment (boot (fun _ => 0))))) =
  [ 6%N; 6%N ].
Proof. vm_compute. reflexivity. Qed.

(** The colours of six instances for the draws 200, 277, 354, ... *)
Example sample_colors :
  match generate_instances 6 (boot (fun n => Z.of_nat n * 77 + 200)) with
  | Ok l _ => map Color l
  | Abort _ _ => []
  end =
  [ 0x6215C8FF; 0x49FCAFFF; 0x30E396FF; 0x17CA7DFF; 0xFEB164FF; 0xE5984BFF ].
Proof. vm_compute. reflexivity. Qed.

(** The earlier revision of [main] has one attachment and one clear value;
    there too the counts agree and the clear goes through. *)
Example single_attachment_clear :
  ClearFramebuffer (mk_Rasterizer (rasterizer_handle false))
    (mk_framebuffer 1600 900 1 [backbuffer_ptr]) [color 0x787878FF] sample_world =
  Ok tt (log sample_world
           [framebuffer_clear_call (mk_framebuffer 1600 900 1 [backbuffer_ptr])
              [color 0x787878FF]]).
Proof. reflexivity. Qed.

(** * Further properties *)

(** ** The assertion of [glm::perspective] *)

Example float_of_uint32_rounds :
  map float_of_uint32
    [0; 1600; 16777215; 16777216; 16777217; 16777219; 4294967295]%N =
  [0; 1600; 16777215; 16777216; 16777216; 16777220; 4294967296]%N.
Proof. vm_compute. reflexivity. Qed.

(** The assertion fails in a debug build for a window of 0x0 (the aspect is
    NaN) and for one whose aspect is [2^-23]; it holds for the other
    degenerate windows, and nothing fails in a release build. *)
Example perspective_passes_samples :
  map (perspective_passes true)
    [(1600, 900); (0, 0); (0, 900); (1600, 0); (1, 8388608); (3, 25165824);
     (1, 8388607); (1, 8388609)]%N =
  [true; false; true; true; false; false; true; true] /\
  map (perspective_passes false) [(1600, 900); (0, 0); (1, 8388608)]%N =
  [true; true; true].
Proof. split; vm_compute; reflexivity. Qed.

Lemma float_of_uint32_small (n : N) :
  (n < 16777216)%N -> float_of_uint32 n = n.
Proof.
  intros Hn. unfold float_of_uint32.
  destruct (N.size n <=? 24)%N eqn:Hsize; [reflexivity|].
  apply N.leb_gt in Hsize. exfalso.
  pose proof (N.size_le n) as Hle.
  assert (Hpow : (2 ^ 25 <= 2 ^ N.size n)%N).
  { apply N.pow_le_mono_r; lia. }
  change (2 ^ 25)%N with 33554432%N in Hpow.
  rewrite N.succ_double_spec in Hle. lia.
Qed.

Lemma float_of_uint32_zero (n : N) : float_of_uint32 n = 0%N -> n = 0%N.
Proof.
  unfold float_of_uint32.
  destruct (N.size n <=? 24)%N eqn:Hsize; [trivial|].
  apply N.leb_gt in Hsize. cbv zeta. intros Hzero.
  apply N.shiftl_eq_0_iff in Hzero.
  assert (Hq : N.shiftr n (N.size n - 24) = 0%N).
  { destruct (_ || _) in Hzero; lia. }
  apply N.shiftr_eq_0_iff in Hq as [Hq|[Hpos Hlog]]; [exact Hq|].
  rewrite N.size_log2 in Hsize, Hlog by lia. lia.
Qed.

Lemma perspective_passes_release (size : N * N) :
  perspective_passes false size = true.
Proof. reflexivity. Qed.

(** The assertion holds for every window that has a width and a height
    below [2^23]. *)
Lemma perspective_passes_ordinary (assertions : bool) (size : N * N) :
  ordinary_size size -> perspective_passes assertions size = true.
Proof.
  intros [Hw Hh]. unfold perspective_passes, float_quotient.
  cbn [glm.is_nan glm.is_epsilon].
  rewrite (float_of_uint32_small (snd size)) by lia.
  assert (Ha : (0 < float_of_uint32 (fst size))%N).
  { destruct (N.eq_dec (float_of_uint32 (fst size)) 0%N) as [Hzero|]; [|lia].
    apply float_of_uint32_zero in Hzero. lia. }
  replace (float_of_uint32 (fst size) =? 0)%N with false
    by (symmetry; apply N.eqb_neq; lia).
  replace (float_of_uint32 (fst size) * 2 ^ 48 <=? snd size * (2 ^ 25 + 2))%N
    with false.
  - cbn [andb orb]. rewrite !andb_false_r. reflexivity.
  - symmetry. apply N.leb_gt.
    change (2 ^ 48)%N with 281474976710656%N.
    change (2 ^ 25 + 2)%N with 33554434%N. lia.
Qed.

(** Without a failing assertion the completed frames are the executed
    ones. *)
Lemma completed_executed (assertions : bool) (envs : list FrameEnv) :
  forall closed,
    aborts assertions closed envs = false ->
    completed assertions closed envs = executed closed envs.
Proof.
  induction envs as [|env envs IH]; intros [|] Hab; try reflexivity.
  cbn [aborts completed executed] in *.
  destruct (perspective_passes _ _); [|discriminate].
  rewrite (IH _ Hab). reflexivity.
Qed.

Lemma aborts_ordinary (assertions : bool) (envs : list FrameEnv) :
  forall closed,
    assertions = false \/
    Forall (fun env => ordinary_size (framebuffer_size (polled env))) envs ->
    aborts assertions closed envs = false.
Proof.
  induction envs as [|env envs IH]; intros [|] Hok; try reflexivity.
  cbn [aborts].
  assert (Hpass : perspective_passes assertions (framebuffer_size (polled env))
                  = true).
  { destruct Hok as [->|Hall]; [reflexivity|].
    apply perspective_passes_ordinary. apply Forall_cons_1 in Hall. apply Hall. }
  rewrite Hpass. apply IH.
  destruct Hok as [->|Hall]; [left; reflexivity|right].
  apply Forall_cons_1 in Hall. apply Hall.
Qed.

Lemma completed_length (assertions : bool) (envs : list FrameEnv) :
  forall closed,
    (length (completed assertions closed envs) +
     (if aborts assertions closed envs then 1 else 0) <= length envs)%nat.
Proof.
  induction envs as [|env envs IH]; intros [|]; cbn [aborts completed length];
    try lia.
  destruct (perspective_passes _ _); cbn [length]; [|lia].
  specialize (IH (close_requested (polled env))). lia.
Qed.

(** ** Frames and the calls they make *)

Lemma count_app (f : event -> bool) (tr evs : list event) :
  count f (tr ++ evs) = (count f tr + count f evs)%nat.
Proof. unfold count. rewrite List.filter_app, length_app. reflexivity. Qed.

Lemma allocator_replay_app (tr evs : list event) :
  forall live,
    allocator_replay live (tr ++ evs) =
    match allocator_replay live tr with
    | Some live' => allocator_replay live' evs
    | None => None
    end.
Proof.
  induction tr as [|e tr IH]; intros live; [reflexivity|].
  destruct e; cbn [app allocator_replay]; try apply IH.
  - destruct p as [| |id]; [apply IH|reflexivity|].
    destruct live as [id'|]; [|reflexivity].
    destruct (Pos.eqb id id'); [apply IH|reflexivity].
  - destruct result as [| |id]; try reflexivity.
    destruct live; [reflexivity|apply IH].
Qed.

Lemma frame_protocol_app (tr evs : list event) :
  forall ph,
    frame_protocol ph (tr ++ evs) =
    match frame_protocol ph tr with
    | Some ph' => frame_protocol ph' evs
    | None => None
    end.
Proof.
  induction tr as [|e tr IH]; intros ph; [reflexivity|].
  cbn [app frame_protocol]. destruct (phase_step ph e); [apply IH|reflexivity].
Qed.

(** What one frame adds to a run up to the assertion: the poll and the
    allocator calls of the validation, which respect the single depth image
    the program holds and leave it holding one. *)
Lemma frame_summary (env : FrameEnv) (st : Locals) (w : World)
    (live : option positive) :
  loop_invariant st w ->
  holds live st w ->
  exists p w2 d id prefix,
    let st' := frame_locals env st p in
    frame env st w =
    (if perspective_passes (assert_live st) (framebuffer_size (polled env))
     then Ok st' (log w2 (frame_suffix st' [backbuffer (polled env); Some d]))
     else Abort assertion_failure w2) /\
    trace w2 = trace w ++ prefix /\
    win w2 = polled env /\
    loop_invariant st' w2 /\
    holds (Some id) st' w2 /\
    clear_is_complete (framebuffer_clear_call (fb st') clearValues) /\
    allocator_replay live prefix = Some (Some id) /\
    frame_protocol Idle prefix = Some Polled /\
    Forall clear_is_complete prefix /\
    count is_poll prefix = 1%nat /\ count is_clear prefix = 0%nat /\
    count is_draw prefix = 0%nat /\ count is_overlay prefix = 0%nat /\
    count is_swap prefix = 0%nat /\
    (count is_allocation prefix <= 1)%nat.
Proof.
  intros Hinv Hholds.
  destruct (frame_runs env st w Hinv)
    as (p & w2 & d & Hrun & Hwin & Hd & _ & Hatt & _ & Htrace & Hinv' & Hframe).
  cbv zeta in Hatt, Htrace, Hinv', Hframe.
  pose proof Hinv as (Hcount & Hlen & Hdepth).
  rewrite (ValidateDepthBuffer_ok (window st) (attachment st 1)
             (frame_start env w) Hdepth) in Hrun.
  set (st' := frame_locals env st p) in *.
  assert (Hclear : clear_is_complete (framebuffer_clear_call (fb st') clearValues)).
  { split; [reflexivity|]. split; [exact Hcount|]. rewrite Hatt. reflexivity. }
  assert (Hslot : attachment st' 1 = p).
  { unfold attachment. rewrite Hatt. reflexivity. }
  unfold validation_events in Htrace.
  destruct (depth_buffer_valid (frame_start env w) (attachment st 1)) eqn:Hvalid.
  - (* the depth buffer is kept *)
    injection Hrun as <- <-.
    destruct live as [id|]; destruct Hholds as [Hptr Hlive].
    2:{ rewrite Hptr in Hvalid. discriminate Hvalid. }
    eexists (attachment st 1), (frame_start env w), d, id, _. cbv zeta.
    split; [exact Hframe|]. split; [exact Htrace|]. split; [exact Hwin|].
    split; [exact Hinv'|].
    split; [split; [exact (eq_trans Hslot Hptr)|exact Hlive]|].
    split; [exact Hclear|].
    split; [reflexivity|]. split; [reflexivity|].
    split; [repeat constructor|].
    repeat split; try reflexivity; cbn; lia.
  - (* the depth buffer is replaced *)
    injection Hrun as <- <-.
    eexists _, _, d, (next_image (frame_start env w)), _. cbv zeta.
    split; [exact Hframe|]. split; [exact Htrace|]. split; [exact Hwin|].
    split; [exact Hinv'|].
    split.
    { split; [exact Hslot|].
      rewrite reallocated_images. eexists.
      change (images (frame_start env w)) with (images w).
      destruct live as [id|]; destruct Hholds as [Hptr Hlive].
      - destruct Hlive as [img Hlive]. rewrite Hptr.
        rewrite Hlive, delete_singleton_eq. apply insert_empty.
      - rewrite Hptr, Hlive. apply insert_empty. }
    split; [exact Hclear|].
    split.
    { unfold frame_prefix. cbn [app allocator_replay].
      destruct live as [id|]; destruct Hholds as [Hptr Hlive]; rewrite Hptr;
        cbn [allocator_replay]; [rewrite Pos.eqb_refl|]; reflexivity. }
    split; [reflexivity|].
    split; [repeat constructor|].
    repeat split; try reflexivity; cbn; lia.
Qed.

(** ** Whole runs *)

(** The loop: its calls follow the frame protocol and the allocator
    discipline, every completed frame contributes one poll, clear, draw,
    overlay and swap, and a frame that stops at the assertion one poll. *)
Lemma main_loop_summary (envs : list FrameEnv) :
  forall st w live,
    loop_invariant st w ->
    holds live st w ->
    let closed := close_requested (win w) in
    let stops := aborts (assert_live st) closed envs in
    let n := length (completed (assert_live st) closed envs) in
    exists st' w' evs live',
      main_loop envs st w =
      (if stops then Abort assertion_failure w'
       else Ok (st', close_seen closed envs) w') /\
      trace w' = trace w ++ evs /\
      held live' w' /\
      (stops = false -> holds live' st' w') /\
      (stops = true -> live' <> None) /\
      allocator_replay live evs = Some live' /\
      frame_protocol Idle evs = Some (if stops then Polled else Idle) /\
      Forall clear_is_complete evs /\
      count is_poll evs = (n + if stops then 1 else 0)%nat /\
      count is_clear evs = n /\
      count is_draw evs = n /\ count is_overlay evs = n /\
      count is_swap evs = n /\
      (count is_allocation evs <= count is_poll evs)%nat.
Proof.
  assert (Hheld : forall live st w, holds live st w -> held live w).
  { intros [id|] st w [_ H]; exact H. }
  induction envs as [|env envs IH]; intros st w live Hinv Hholds; cbv zeta.
  - cbn [main_loop]. cbv [bind Window_IsCloseRequested get_window ret].
    exists st, w, [], live. rewrite app_nil_r.
    destruct (close_requested (win w)); cbn [aborts completed close_seen length];
      repeat split; eauto; try discriminate; try constructor.
  - cbn [main_loop]. cbv [bind Window_IsCloseRequested get_window ret].
    destruct (close_requested (win w)) eqn:Hclosed;
      cbn [aborts completed close_seen].
    + exists st, w, [], live. rewrite app_nil_r. cbn [length].
      repeat split; eauto; try discriminate; try constructor.
    + destruct (frame_summary env st w live Hinv Hholds)
        as (p & w2 & d & id & prefix & Hframe & Htrace1 & Hwin1 & Hinv1
            & Hholds1 & Hclear & Hreplay1 & Hproto1 & Hclears1 & Hc1 & Hc2 & Hc3
            & Hc4 & Hc5 & Hc6).
      cbv zeta in Hframe, Hinv1, Hholds1, Hclear.
      rewrite Hframe.
      destruct (perspective_passes _ _) eqn:Hpass.
      * set (st1 := frame_locals env st p) in *.
        set (suffix := frame_suffix st1 [backbuffer (polled env); Some d]).
        destruct (IH st1 (log w2 suffix) (Some id) Hinv1 Hholds1)
          as (st' & w' & evs & live' & Hloop & Htrace & Hheld' & Hholds'
              & Hsome & Hreplay & Hproto & Hclears & Hd1 & Hd2 & Hd3 & Hd4 & Hd5
              & Hd6).
        cbv zeta in Hloop, Hholds', Hsome, Hproto, Hd1, Hd2, Hd3, Hd4, Hd5, Hd6.
        change (win (log w2 suffix)) with (win w2)
          in Hloop, Hholds', Hsome, Hproto, Hd1, Hd2, Hd3, Hd4, Hd5, Hd6.
        rewrite Hwin1 in Hloop, Hholds', Hsome, Hproto, Hd1, Hd2, Hd3, Hd4, Hd5.
        change (assert_live st1) with (assert_live st)
          in Hloop, Hholds', Hsome, Hproto, Hd1, Hd2, Hd3, Hd4, Hd5, Hd6.
        exists st', w', (prefix ++ suffix ++ evs), live'.
        split; [exact Hloop|].
        split.
        { rewrite Htrace. cbn [log trace]. rewrite Htrace1, <- !app_assoc.
          reflexivity. }
        split; [exact Hheld'|]. split; [exact Hholds'|]. split; [exact Hsome|].
        split.
        { rewrite allocator_replay_app, Hreplay1, allocator_replay_app.
          exact Hreplay. }
        split.
        { rewrite frame_protocol_app, Hproto1, frame_protocol_app.
          exact Hproto. }
        split.
        { apply Forall_app. split; [exact Hclears1|].
          apply Forall_app. split; [|exact Hclears].
          subst suffix. unfold frame_suffix.
          repeat first [apply List.Forall_nil | apply List.Forall_cons
                       | exact I | exact Hclear]. }
        cbn [length]. rewrite !count_app.
        change (count is_poll suffix) with 0%nat.
        change (count is_clear suffix) with 1%nat.
        change (count is_draw suffix) with 1%nat.
        change (count is_overlay suffix) with 1%nat.
        change (count is_swap suffix) with 1%nat.
        change (count is_allocation suffix) with 0%nat.
        repeat split; lia.
      * exists st, w2, prefix, (Some id). cbn [length].
        split; [reflexivity|]. split; [exact Htrace1|].
        split; [apply Hholds1|]. split; [discriminate|].
        split; [discriminate|]. split; [exact Hreplay1|].
        split; [exact Hproto1|]. split; [exact Hclears1|].
        repeat split; lia.
Qed.

Lemma setup_prefix_quiet (env : Environment) (n : nat) :
  allocator_replay None (take n (setup_events env)) = Some None /\
  frame_protocol Idle (take n (setup_events env)) = Some Idle /\
  Forall clear_is_complete (take n (setup_events env)) /\
  forall f, In f [is_poll; is_clear; is_draw; is_overlay; is_swap; is_allocation] ->
            count f (take n (setup_events env)) = 0%nat.
Proof.
  do 6 (destruct n as [|n]; [cbn; repeat split;
          try (repeat constructor);
          intros f [<-|[<-|[<-|[<-|[<-|[<-|[]]]]]]]; reflexivity|]).
  cbn; repeat split; try (repeat constructor).
  intros f [<-|[<-|[<-|[<-|[<-|[<-|[]]]]]]]; reflexivity.
Qed.

Lemma setup_events_quiet (env : Environment) :
  allocator_replay None (setup_events env) = Some None /\
  frame_protocol Idle (setup_events env) = Some Idle /\
  Forall clear_is_complete (setup_events env) /\
  forall f, In f [is_poll; is_clear; is_draw; is_overlay; is_swap; is_allocation] ->
            count f (setup_events env) = 0%nat.
Proof. exact (setup_prefix_quiet env 5). Qed.

Lemma teardown_replay (live : option positive) (st : Locals) (w : World) :
  holds live st w ->
  allocator_replay live (teardown_events (attachment st 1)) = Some None /\
  images (torn_down st w) = ∅.
Proof.
  unfold torn_down, teardown_events. cbn [images].
  destruct live as [id|]; intros [Hptr Hlive]; rewrite Hptr.
  - destruct Hlive as [img Hlive]. cbn [allocator_replay].
    rewrite Pos.eqb_refl, Hlive, delete_singleton_eq. split; reflexivity.
  - split; [reflexivity|exact Hlive].
Qed.

(** A run of [main] whose set-up succeeds: how it ends, and what the loop
    has called until then. *)
Lemma main_run (env : Environment) (draws : nat -> Z) (created : window_t) :
  rasterizer_created env = true ->
  window_created env = Some created ->
  let closed := close_requested created in
  let stops := aborts (s_IsDebug env) closed (frames env) in
  let n := length (completed (s_IsDebug env) closed (frames env)) in
  exists st' w2 evs live,
    main env (boot draws) =
    (if stops then Abort assertion_failure w2
     else if close_seen closed (frames env)
          then Ok (Some 0) (torn_down st' w2)
          else Ok None w2) /\
    trace w2 = setup_events env ++ evs /\
    held live w2 /\
    (stops = false -> holds live st' w2) /\
    (stops = true -> live <> None) /\
    allocator_replay None evs = Some live /\
    frame_protocol Idle evs = Some (if stops then Polled else Idle) /\
    Forall clear_is_complete evs /\
    count is_poll evs = (n + if stops then 1 else 0)%nat /\
    count is_clear evs = n /\
    count is_draw evs = n /\ count is_overlay evs = n /\
    count is_swap evs = n /\
    (count is_allocation evs <= count is_poll evs)%nat.
Proof.
  intros Hrast Hwin. cbv zeta.
  destruct (main_setup env draws created Hrast Hwin)
    as (insts & w1 & _ & _ & _ & Hw1 & _ & Ht1 & Hinv & Hholds & Hmain).
  destruct (main_loop_summary (frames env) (initial_locals env insts) w1 None
              Hinv Hholds)
    as (st' & w2 & evs & live & Hloop & Htrace & Hrest).
  cbv zeta in Hloop, Hrest. rewrite Hw1 in Hloop, Hrest.
  change (assert_live (initial_locals env insts)) with (s_IsDebug env)
    in Hloop, Hrest.
  exists st', w2, evs, live.
  split; [rewrite Hmain; apply main_after_setup_eq; exact Hloop|].
  split; [rewrite Htrace, Ht1; reflexivity|exact Hrest].
Qed.

Lemma main_cases (env : Environment) (draws : nat -> Z) :
  (exists n, (n <= 4)%nat /\
             main env (boot draws) =
             Abort null_dereference
               (mk_World (default (mk_window (0, 0)%N None false)
                            (window_created env))
                  ∅ 1%positive draws 0 (take n (setup_events env))) /\
             completed_frames env = [] /\ run_aborts env = false) \/
  (exists created,
     rasterizer_created env = true /\ window_created env = Some created).
Proof.
  destruct (window_created env) as [created|] eqn:Hwin.
  - destruct (rasterizer_created env) eqn:Hrast; [right; eauto|].
    left. exists 4%nat. split; [lia|].
    split; [apply (main_without_rasterizer env draws created Hwin Hrast)|].
    unfold completed_frames, run_aborts. rewrite Hrast. split; reflexivity.
  - left. exists 3%nat. split; [lia|].
    split; [apply (main_without_window env draws Hwin)|].
    unfold completed_frames, run_aborts. rewrite Hwin.
    destruct (rasterizer_created env); split; reflexivity.
Qed.

(** X1.  When the window or the rasterizer cannot be created, [main] ends
    in a null dereference during the set-up, before any frame and with no
    image allocated: after the first three set-up calls when there is no
    window, after the first four when there is a window but no
    rasterizer. *)
Theorem main_setup_failure (env : Environment) (draws : nat -> Z) :
  rasterizer_created env = false \/ window_created env = None ->
  exists w' n,
    main env (boot draws) = Abort null_dereference w' /\
    trace w' = take n (setup_events env) /\
    n = match window_created env with Some _ => 4%nat | None => 3%nat end /\
    images w' = ∅ /\
    count is_poll (trace w') = 0%nat /\
    count is_allocation (trace w') = 0%nat.
Proof.
  intros Hfail.
  destruct (window_created env) as [created|] eqn:Hwin.
  - destruct Hfail as [Hrast|Hnone]; [|discriminate].
    eexists _, 4%nat.
    split; [apply (main_without_rasterizer env draws created Hwin Hrast)|].
    cbn [trace images]. split; [reflexivity|]. split; [reflexivity|].
    split; [reflexivity|].
    split; apply setup_prefix_quiet; cbn; tauto.
  - eexists _, 3%nat.
    split; [apply (main_without_window env draws Hwin)|].
    cbn [trace images log boot app]. split; [reflexivity|].
    split; [reflexivity|]. split; [reflexivity|].
    split; apply setup_prefix_quiet; cbn; tauto.
Qed.

(** X2.  Once the rasterizer and the window exist, [main] ends in one of
    three ways, decided by what the window reports: it is aborted by the
    assertion of [glm::perspective] if, before a close request, a frame
    finds the window at 0x0 or at an aspect of [2^-23] and assertions are
    compiled in; otherwise it returns 0 if the window asks to close within
    the frames given, and is otherwise still in its loop.  It is not aborted
    in a release build, nor while every reported size has a width and a
    height below [2^23]. *)
Theorem main_outcome_after_setup (env : Environment) (draws : nat -> Z)
    (created : window_t) :
  rasterizer_created env = true ->
  window_created env = Some created ->
  let closed := close_requested created in
  let stops := aborts (s_IsDebug env) closed (frames env) in
  (exists w',
     main env (boot draws) =
     if stops then Abort assertion_failure w'
     else Ok (if close_seen closed (frames env) then Some 0 else None) w') /\
  (s_IsDebug env = false \/
   Forall (fun fenv => ordinary_size (framebuffer_size (polled fenv)))
     (frames env) ->
   stops = false).
Proof.
  intros Hrast Hwin. cbv zeta. split.
  - destruct (main_run env draws created Hrast Hwin)
      as (st' & w2 & evs & live & Hmain & _).
    cbv zeta in Hmain. rewrite Hmain.
    destruct (aborts _ _ _); [eauto|].
    destruct (close_seen _ _); eauto.
  - apply aborts_ordinary.
Qed.

(** X3.  In every run of [main] the allocator is used for one image at a
    time: an image is released only while it is held and released once, a
    new one is allocated only when none is held.  When [main] returns, or
    fails in the set-up, no image is left allocated; when it is aborted by
    the assertion, the depth image of that frame is; it never ends in a
    runtime error. *)
Theorem main_allocator_discipline (env : Environment) (draws : nat -> Z) :
  exists live,
    allocator_replay None (trace (world_of (main env (boot draws)))) = Some live /\
    match main env (boot draws) with
    | Ok (Some _) w' => live = None /\ images w' = ∅
    | Ok None w' =>
        match live with
        | None => images w' = ∅
        | Some id => exists img, images w' = {[ id := img ]}
        end
    | Abort null_dereference w' => live = None /\ images w' = ∅
    | Abort assertion_failure w' =>
        exists id img, live = Some id /\ images w' = {[ id := img ]}
    | Abort (runtime_error _) _ => False
    end.
Proof.
  destruct (main_cases env draws)
    as [(n & _ & Hmain & _)|(created & Hrast & Hwin)].
  - exists None. rewrite Hmain. cbn [world_of trace images].
    split; [apply setup_prefix_quiet|]. split; reflexivity.
  - destruct (main_run env draws created Hrast Hwin)
      as (st' & w2 & evs & live & Hmain & Htrace & Hheld & Hholds & Hsome
          & Hreplay & _).
    cbv zeta in Hmain, Hholds, Hsome. rewrite Hmain.
    assert (Hrun : allocator_replay None (trace w2) = Some live).
    { rewrite Htrace, allocator_replay_app.
      destruct (setup_events_quiet env) as [-> _]. exact Hreplay. }
    destruct (aborts _ _ _).
    + exists live. cbn [world_of]. split; [exact Hrun|].
      destruct live as [id|]; [|destruct (Hsome eq_refl eq_refl)].
      destruct Hheld as [img Himg]. exists id, img. split; [reflexivity|exact Himg].
    + specialize (Hholds eq_refl).
      destruct (close_seen (close_requested created) (frames env)).
      * exists None. cbn [world_of].
        destruct (teardown_replay live st' w2 Hholds) as [Hdown Hempty].
        split; [|split; [reflexivity|exact Hempty]].
        unfold torn_down at 1. cbn [trace].
        rewrite allocator_replay_app, Hrun. exact Hdown.
      * exists live. cbn [world_of]. split; [exact Hrun|exact Hheld].
Qed.

(** X4.  In every run of [main] the calls come in the order of the frame
    protocol: each poll is followed by the allocator calls of the
    validation, if any, then one clear, one draw, one overlay render and one
    swap, before the next poll.  The one frame that can be left unfinished
    is the last, when the assertion aborts the run after the poll and the
    validation. *)
Theorem main_follows_frame_protocol (env : Environment) (draws : nat -> Z) :
  frame_protocol Idle (trace (world_of (main env (boot draws)))) =
  Some (if run_aborts env then Polled else Idle) /\
  (run_aborts env = true <->
   exists w', main env (boot draws) = Abort assertion_failure w').
Proof.
  destruct (main_cases env draws)
    as [(n & _ & Hmain & _ & Hnone)|(created & Hrast & Hwin)].
  - rewrite Hmain, Hnone. cbn [world_of trace].
    split; [apply setup_prefix_quiet|].
    split; [discriminate|]. intros [w' Hw']. discriminate Hw'.
  - destruct (main_run env draws created Hrast Hwin)
      as (st' & w2 & evs & live & Hmain & Htrace & _ & _ & _ & _ & Hproto & _).
    cbv zeta in Hmain, Hproto.
    unfold run_aborts. rewrite Hrast, Hwin, Hmain.
    assert (Hrun : frame_protocol Idle (trace w2) =
                   Some (if aborts (s_IsDebug env) (close_requested created)
                              (frames env)
                         then Polled else Idle)).
    { rewrite Htrace, frame_protocol_app.
      destruct (setup_events_quiet env) as (_ & -> & _). exact Hproto. }
    destruct (aborts _ _ _).
    + split; [exact Hrun|]. split; [eauto|reflexivity].
    + split.
      * destruct (close_seen (close_requested created) (frames env));
          cbn [world_of]; [|exact Hrun].
        unfold torn_down. cbn [trace]. rewrite frame_protocol_app, Hrun.
        reflexivity.
      * split; [discriminate|]. intros [w' Hw'].
        destruct (close_seen _ _); discriminate Hw'.
Qed.

(** X5.  A run of [main] clears, draws, renders the overlay and swaps once
    per completed frame; it polls once per completed frame and once more
    when the assertion aborts it in a frame; it allocates at most once per
    poll.  The completed frames are those before the first close request
    and the first failed assertion, none when the set-up fails. *)
Theorem main_calls_per_frame (env : Environment) (draws : nat -> Z) :
  let tr := trace (world_of (main env (boot draws))) in
  let polls := (frames_run env + if run_aborts env then 1 else 0)%nat in
  count is_poll tr = polls /\
  count is_clear tr = frames_run env /\
  count is_draw tr = frames_run env /\
  count is_overlay tr = frames_run env /\
  count is_swap tr = frames_run env /\
  (allocations tr <= polls)%nat /\
  (polls <= length (frames env))%nat.
Proof.
  cbv zeta.
  change allocations with (count is_allocation).
  destruct (main_cases env draws)
    as [(n & _ & Hmain & Hnone & Hstops)|(created & Hrast & Hwin)].
  - rewrite Hmain. unfold frames_run. rewrite Hnone, Hstops.
    cbn [world_of trace length].
    destruct (setup_prefix_quiet env n) as (_ & _ & _ & Hzero).
    rewrite !Hzero by (cbn; tauto). repeat split; lia.
  - destruct (main_run env draws created Hrast Hwin)
      as (st' & w2 & evs & live & Hmain & Htrace & _ & _ & _ & _ & _ & _
          & Hc1 & Hc2 & Hc3 & Hc4 & Hc5 & Hc6).
    cbv zeta in Hmain, Hc1, Hc2, Hc3, Hc4, Hc5.
    pose proof (completed_length (s_IsDebug env) (frames env)
                  (close_requested created)) as Hbound.
    unfold frames_run, completed_frames, run_aborts. rewrite Hrast, Hwin.
    destruct (setup_events_quiet env) as (_ & _ & _ & Hzero).
    assert (Hrun : forall f,
               In f [is_poll; is_clear; is_draw; is_overlay; is_swap; is_allocation] ->
               count f (trace (world_of (main env (boot draws)))) = count f evs).
    { intros f Hf. rewrite Hmain.
      destruct (aborts _ _ _);
        [cbn [world_of]; rewrite Htrace, count_app, (Hzero f Hf); reflexivity|].
      destruct (close_seen (close_requested created) (frames env));
        cbn [world_of]; [unfold torn_down; cbn [trace]; rewrite count_app|];
        rewrite Htrace, count_app, (Hzero f Hf);
        [|reflexivity].
      revert Hf. intros [<-|[<-|[<-|[<-|[<-|[<-|[]]]]]]]; cbn; lia. }
    rewrite !Hrun by (cbn; tauto).
    repeat split; try assumption; lia.
Qed.

(** X6.  Every clear that [main] issues passes the two clear values of the
    program (colour 0x787878FF, depth 1) for a framebuffer of two
    attachments, so the count check of [ClearFramebuffer] never fires in
    [main]. *)
Theorem main_clears_are_complete (env : Environment) (draws : nat -> Z) :
  Forall clear_is_complete (trace (world_of (main env (boot draws)))) /\
  forall what w', main env (boot draws) <> Abort (runtime_error what) w'.
Proof.
  destruct (main_cases env draws)
    as [(n & _ & Hmain & _)|(created & Hrast & Hwin)].
  - rewrite Hmain. cbn [world_of trace].
    split; [apply setup_prefix_quiet|discriminate].
  - destruct (main_run env draws created Hrast Hwin)
      as (st' & w2 & evs & live & Hmain & Htrace & _ & _ & _ & _ & _ & Hclears
          & _).
    cbv zeta in Hmain. rewrite Hmain.
    assert (Hrun : Forall clear_is_complete (trace w2)).
    { rewrite Htrace. apply Forall_app. split; [apply setup_events_quiet|].
      exact Hclears. }
    destruct (aborts _ _ _); [split; [exact Hrun|discriminate]|].
    destruct (close_seen (close_requested created) (frames env));
      cbn [world_of]; (split; [|discriminate]); [|exact Hrun].
    unfold torn_down. cbn [trace]. apply Forall_app. split; [exact Hrun|].
    repeat constructor.
Qed.

(** X7.  When the window asks to close and no assertion has aborted the run
    before, the loop is left and [main] returns 0 after exactly these calls,
    in this order: the release of the depth attachment it holds (of the null
    pointer if no frame ran), the shutdown of the overlay renderer, the
    destruction of the window, of the ImGui context and of the rasterizer.
    The image released is the one still allocated, which leaves none. *)
Theorem main_teardown (env : Environment) (draws : nat -> Z) (created : window_t) :
  rasterizer_created env = true ->
  window_created env = Some created ->
  aborts (s_IsDebug env) (close_requested created) (frames env) = false ->
  close_seen (close_requested created) (frames env) = true ->
  exists w' tr depthbuffer,
    main env (boot draws) = Ok (Some 0) w' /\
    trace w' = tr ++ teardown_events depthbuffer /\
    allocator_replay None tr =
    Some (match depthbuffer with allocated_ptr id => Some id | _ => None end) /\
    depthbuffer <> backbuffer_ptr /\
    images w' = ∅ /\
    (frames_run env = 0%nat -> depthbuffer = nullptr).
Proof.
  intros Hrast Hwin Hstops Hclose.
  destruct (main_run env draws created Hrast Hwin)
    as (st' & w2 & evs & live & Hmain & Htrace & _ & Hholds & _ & Hreplay & _
        & _ & Hpolls & _ & _ & _ & _ & Halloc).
  cbv zeta in Hmain, Hholds, Hpolls.
  rewrite Hstops in Hmain, Hholds, Hpolls. rewrite Hclose in Hmain.
  specialize (Hholds eq_refl).
  exists (torn_down st' w2), (trace w2), (attachment st' 1).
  split; [exact Hmain|]. split; [reflexivity|].
  assert (Hrun : allocator_replay None (trace w2) = Some live).
  { rewrite Htrace, allocator_replay_app.
    destruct (setup_events_quiet env) as [-> _]. exact Hreplay. }
  destruct (teardown_replay live st' w2 Hholds) as [_ Hempty].
  split; [|split; [|split; [exact Hempty|]]].
  - rewrite Hrun. destruct live as [id|]; destruct Hholds as [-> _]; reflexivity.
  - destruct live as [id|]; destruct Hholds as [-> _]; discriminate.
  - intros Hnone. unfold frames_run, completed_frames in Hnone.
    rewrite Hrast, Hwin in Hnone. rewrite Hnone in Hpolls.
    destruct live as [id|]; [|apply Hholds].
    exfalso. clear - Hreplay Halloc Hpolls.
    assert (Hgen : forall tr l, count is_allocation tr = 0%nat ->
                     allocator_replay l tr = Some (Some id) -> l = Some id).
    { induction tr as [|e tr IH]; intros l Hc Hr; [cbn in Hr; congruence|].
      destruct e; cbn [allocator_replay] in Hr;
        try (apply IH; [exact Hc|exact Hr]).
      - destruct p as [| |id']; [apply IH; [exact Hc|exact Hr]|discriminate|].
        destruct l as [id''|]; [|discriminate].
        destruct (Pos.eqb id' id''); [|discriminate].
        specialize (IH None Hc Hr). discriminate.
      - cbn in Hc. discriminate. }
    assert (Hzero : count is_allocation evs = 0%nat) by lia.
    specialize (Hgen evs None Hzero Hreplay). discriminate.
Qed.

Lemma main_setup_failure_witness :
  (exists w',
     main sample_failing_environment (boot (fun _ => 0)) =
     Abort null_dereference w' /\
     trace w' = take 3 (setup_events sample_failing_environment)) /\
  (exists w',
     main sample_headless_environment (boot (fun _ => 0)) =
     Abort null_dereference w' /\
     trace w' = take 4 (setup_events sample_headless_environment)).
Proof.
  split.
  - destruct (main_setup_failure sample_failing_environment (fun _ => 0))
      as (w' & n & Hmain & Htrace & Hn & _).
    + right. reflexivity.
    + exists w'. split; [exact Hmain|]. rewrite Htrace, Hn. reflexivity.
  - destruct (main_setup_failure sample_headless_environment (fun _ => 0))
      as (w' & n & Hmain & Htrace & Hn & _).
    + left. reflexivity.
    + exists w'. split; [exact Hmain|]. rewrite Htrace, Hn. reflexivity.
Defined.

Lemma main_outcome_after_setup_witness :
  (exists w', main sample_environment (boot (fun _ => 0)) = Ok None w') /\
  (exists w', main sample_closing_environment (boot (fun _ => 0)) = Ok (Some 0) w') /\
  (exists w', main (sample_minimized_environment true) (boot (fun _ => 0)) =
              Abort assertion_failure w') /\
  (exists w', main (sample_minimized_environment false) (boot (fun _ => 0)) =
              Ok None w').
Proof.
  repeat split.
  - apply (main_outcome_after_setup sample_environment (fun _ => 0)
             (sample_surface 1600 900)); reflexivity.
  - apply (main_outcome_after_setup sample_closing_environment (fun _ => 0)
             (sample_surface 1600 900)); reflexivity.
  - apply (main_outcome_after_setup (sample_minimized_environment true)
             (fun _ => 0) (sample_surface 1600 900)); reflexivity.
  - apply (main_outcome_after_setup (sample_minimized_environment false)
             (fun _ => 0) (sample_surface 1600 900)); reflexivity.
Defined.

Lemma main_teardown_witness :
  exists w' tr depthbuffer,
    main sample_closing_environment (boot (fun _ => 0)) = Ok (Some 0) w' /\
    trace w' = tr ++ teardown_events depthbuffer /\
    images w' = ∅.
Proof.
  destruct (main_teardown sample_closing_environment (fun _ => 0)
              (sample_surface 1600 900))
    as (w' & tr & p & Hmain & Htrace & _ & _ & Himg & _); try reflexivity.
  exists w', tr, p. repeat split; assumption.
Defined.

(** The run that closes after one frame: its allocator calls and swaps. *)
Example sample_closing_run :
  List.filter (fun e => is_allocator_call e || is_swap e)
    (trace (world_of (main sample_closing_environment (boot (fun _ => 0))))) =
  [ image_free_call nullptr;
    image_allocate_call 1600 900 IMAGE_FORMAT_DEPTH (allocated_ptr 1);
    window_swap_buffers_call;
    image_free_call (allocated_ptr 1) ].
Proof. vm_compute. reflexivity. Qed.

(** The run whose window is minimized in the second frame.  The debug build
    is aborted in that frame, after the depth image has been replaced by one
    of 0x0 and before anything is cleared or drawn; the release build goes
    through all three frames. *)
Example sample_minimized_run :
  List.filter (fun e => is_allocator_call e || is_poll e || is_swap e)
    (trace (world_of (main (sample_minimized_environment true)
                        (boot (fun _ => 0))))) =
  [ window_poll_call;
    image_free_call nullptr;
    image_allocate_call 1600 900 IMAGE_FORMAT_DEPTH (allocated_ptr 1);
    window_swap_buffers_call;
    window_poll_call;
    image_free_call (allocated_ptr 1);
    image_allocate_call 0 0 IMAGE_FORMAT_DEPTH (allocated_ptr 2) ] /\
  count is_swap
    (trace (world_of (main (sample_minimized_environment false)
                        (boot (fun _ => 0))))) = 3%nat.
Proof. split; vm_compute; reflexivity. Qed.

(** ** The instance generator: the colour bytes and the random numbers *)

Lemma land_low_high (a b k : Z) :
  0 <= k -> 0 <= a < 2 ^ k -> Z.land a (b * 2 ^ k) = 0.
Proof.
  intros Hk Ha. apply Z.bits_inj'. intros n Hn.
  rewrite Z.land_spec, Z.bits_0.
  destruct (Z.lt_ge_cases n k) as [Hlt|Hge].
  - rewrite Z.mul_pow2_bits_low by lia. apply andb_false_r.
  - rewrite <- (Z.mod_small a (2 ^ k)) by lia.
    rewrite Z.mod_pow2_bits_high by lia. reflexivity.
Qed.

Lemma lor_low_high (a b k : Z) :
  0 <= k -> 0 <= a < 2 ^ k -> Z.lor a (b * 2 ^ k) = a + b * 2 ^ k.
Proof.
  intros Hk Ha. symmetry. apply Z.add_nocarry_lor, land_low_high; assumption.
Qed.

(** One round of the inner loop puts the low byte of the number drawn into
    byte [j + 1] of a colour that is still empty from there on. *)
Lemma color_channel_byte (j : nat) (c : Z) (w : World) :
  (j < 3)%nat ->
  0 <= c < 2 ^ (8 * (Z.of_nat j + 1)) ->
  color_channel j c w =
  Ok (c + (rand_draws w (rand_next w) mod 256) * 2 ^ (8 * (Z.of_nat j + 1)))
     (mk_World (win w) (images w) (next_image w) (rand_draws w)
               (Datatypes.S (rand_next w)) (trace w)).
Proof.
  intros Hj Hc. unfold color_channel, bind, rand, ret. f_equal.
  set (r := rand_draws w (rand_next w)).
  assert (Hch : to_uint8 (Z.land r 0xFF) = r mod 256).
  { unfold to_uint8. change 0xFF with (Z.ones 8).
    rewrite Z.land_ones by lia. change (2 ^ 8) with 256. apply Zmod_mod. }
  rewrite Hch, to_uint32_to_int.
  replace ((Z.of_nat j + 1) * 8) with (8 * (Z.of_nat j + 1)) by lia.
  rewrite Z.shiftl_mul_pow2 by lia.
  assert (Hr : 0 <= r mod 256 < 256) by (apply Z.mod_pos_bound; lia).
  assert (Hsmall : 0 <= (r mod 256) * 2 ^ (8 * (Z.of_nat j + 1)) < 2 ^ 32).
  { assert (Hpow : 0 < 2 ^ (8 * (Z.of_nat j + 1)) <= 2 ^ 24).
    { split; [apply Z.pow_pos_nonneg; lia|].
      apply Z.pow_le_mono_r; lia. }
    change (2 ^ 32) with (256 * 2 ^ 24). nia. }
  rewrite Z.mod_small by exact Hsmall.
  apply lor_low_high; [lia|exact Hc].
Qed.

Lemma make_instance_color (size i : nat) (w : World) :
  exists inst,
    make_instance size i w =
    Ok inst (mk_World (win w) (images w) (next_image w) (rand_draws w)
                      (3 + rand_next w) (trace w)) /\
    Color inst =
    0xFF + (rand_draws w (rand_next w) mod 256) * 2 ^ 8
         + (rand_draws w (1 + rand_next w) mod 256) * 2 ^ 16
         + (rand_draws w (2 + rand_next w) mod 256) * 2 ^ 24.
Proof.
  unfold make_instance. cbn [for_loop]. unfold bind at 1 2 3 4.
  assert (Hbyte : forall r, 0 <= r mod 256 < 256)
    by (intros r; apply Z.mod_pos_bound; lia).
  pose proof (Hbyte (rand_draws w (rand_next w))) as H0.
  pose proof (Hbyte (rand_draws w (1 + rand_next w))) as H1.
  change (Z.of_nat 0) with 0. change (Z.of_nat 1) with 1.
  change (Z.of_nat 2) with 2.
  rewrite color_channel_byte
    by (try lia; change (Z.of_nat 0) with 0; change (2 ^ (8 * (0 + 1))) with 256; lia).
  cbn [win images next_image rand_draws rand_next trace].
  change (Z.of_nat 0) with 0. change (8 * (0 + 1)) with 8.
  rewrite color_channel_byte
    by (try lia; change (Z.of_nat 1) with 1;
        change (2 ^ (8 * (1 + 1))) with 65536; change (2 ^ 8) with 256; lia).
  cbn [win images next_image rand_draws rand_next trace].
  change (Z.of_nat 1) with 1. change (8 * (1 + 1)) with 16.
  change (Datatypes.S (rand_next w)) with (1 + rand_next w)%nat.
  rewrite color_channel_byte
    by (try lia; change (Z.of_nat 2) with 2;
        change (2 ^ (8 * (2 + 1))) with 16777216; change (2 ^ 16) with 65536;
        change (2 ^ 8) with 256; lia).
  cbn [win images next_image rand_draws rand_next trace].
  change (Z.of_nat 2) with 2. change (8 * (2 + 1)) with 24.
  eexists. split; reflexivity.
Qed.

Lemma packed_color_bytes (a b c : Z) :
  0 <= a < 256 -> 0 <= b < 256 -> 0 <= c < 256 ->
  let C := 0xFF + a * 2 ^ 8 + b * 2 ^ 16 + c * 2 ^ 24 in
  0 <= C < 2 ^ 32 /\
  C mod 256 = 255 /\ (C / 2 ^ 8) mod 256 = a /\
  (C / 2 ^ 16) mod 256 = b /\ (C / 2 ^ 24) mod 256 = c.
Proof.
  intros Ha Hb Hc C. subst C.
  change (2 ^ 8) with 256. change (2 ^ 16) with 65536.
  change (2 ^ 24) with 16777216. change (2 ^ 32) with 4294967296.
  repeat split; try lia; Z.div_mod_to_equations; lia.
Qed.

(** X8.  The generator draws exactly three random numbers per instance, in
    order, and changes nothing else of the world.  The colour of instance
    [i] is 0xFF in the low byte and the low bytes of its three numbers in
    the bytes above, first number in byte 1; it fits 32 bits, and each byte
    reads back as the number's low byte. *)
Theorem generate_instances_colors (size : nat) (w : World) :
  exists instances w',
    generate_instances size w = Ok instances w' /\
    rand_next w' = (3 * size + rand_next w)%nat /\
    rand_draws w' = rand_draws w /\
    same_but_rand w w' /\
    forall i instance,
      instances !! i = Some instance ->
      let C := Color instance in
      C = 0xFF + drawn_byte w (3 * i) * 2 ^ 8
               + drawn_byte w (3 * i + 1) * 2 ^ 16
               + drawn_byte w (3 * i + 2) * 2 ^ 24 /\
      0 <= C < 2 ^ 32 /\
      C mod 256 = 255 /\
      (C / 2 ^ 8) mod 256 = drawn_byte w (3 * i) /\
      (C / 2 ^ 16) mod 256 = drawn_byte w (3 * i + 1) /\
      (C / 2 ^ 24) mod 256 = drawn_byte w (3 * i + 2).
Proof.
  unfold generate_instances.
  destruct (for_loop_invariant
              (fun n (instances : list Instance) w' =>
                 length instances = size /\
                 rand_next w' = (3 * n + rand_next w)%nat /\
                 rand_draws w' = rand_draws w /\
                 same_but_rand w w' /\
                 forall i instance,
                   (i < n)%nat -> instances !! i = Some instance ->
                   Color instance =
                   0xFF + drawn_byte w (3 * i) * 2 ^ 8
                        + drawn_byte w (3 * i + 1) * 2 ^ 16
                        + drawn_byte w (3 * i + 2) * 2 ^ 24)
              (fun i instances =>
                 instance <- make_instance size i ;;
                 ret (<[i := instance]> instances))
              size 0%nat (replicate size indeterminate_Instance) w)
    as (instances & w' & Hloop & Hlen & Hnext & Hdraws & Hsame & Hall).
  - intros k l w1 Hk (Hlen & Hnext & Hdraws & Hsame & Hdone).
    destruct (make_instance_color size k w1) as (inst & Hmake & Hcolor).
    eexists _, _. split.
    { unfold bind at 1. rewrite Hmake. reflexivity. }
    cbn [rand_next rand_draws].
    split; [rewrite length_insert; exact Hlen|].
    split; [lia|]. split; [exact Hdraws|].
    split; [destruct Hsame as (? & ? & ? & ?); repeat split; assumption|].
    intros i instance Hi Hlook. destruct (decide (i = k)) as [->|Hne].
    + rewrite list_lookup_insert_eq in Hlook by lia. injection Hlook as <-.
      rewrite Hcolor, Hdraws, Hnext. unfold drawn_byte.
      replace (1 + (3 * k + rand_next w))%nat with (3 * k + 1 + rand_next w)%nat
        by lia.
      replace (2 + (3 * k + rand_next w))%nat with (3 * k + 2 + rand_next w)%nat
        by lia.
      reflexivity.
    + rewrite list_lookup_insert_ne in Hlook by congruence.
      apply Hdone; [lia|exact Hlook].
  - split; [apply length_replicate|]. split; [lia|]. split; [reflexivity|].
    split; [apply same_but_rand_refl|]. intros i instance Hi. lia.
  - exists instances, w'. split; [exact Hloop|].
    split; [lia|]. split; [exact Hdraws|]. split; [exact Hsame|].
    intros i instance Hlook. cbv zeta.
    assert (Hlt : (i < 0 + size)%nat).
    { rewrite <- Hlen. eapply lookup_lt_Some. exact Hlook. }
    pose proof (Hall i instance Hlt Hlook) as Hcolor.
    split; [exact Hcolor|]. rewrite Hcolor.
    apply packed_color_bytes; unfold drawn_byte; apply Z.mod_pos_bound; lia.
Qed.

(** ** The instance generator: geometry of the transforms *)

Lemma model_shrinks_distances (t x y z x' y' z' : R) :
  let M := glm.mul (scale_matrix 0.25)
             (glm.mul (rotate_y_matrix t)
                (translate_matrix (glm.mk_vec3 0 0 (-0.5)))) in
  sq_dist (glm.mul_vec M (glm.mk_vec4 x y z 1))
          (glm.mul_vec M (glm.mk_vec4 x' y' z' 1)) =
  (sq_dist (glm.mk_vec4 x y z 1) (glm.mk_vec4 x' y' z' 1) / 16)%R.
Proof.
  intros M. subst M. rewrite !model_on_point.
  unfold sq_dist. cbn [glm.x4 glm.y4 glm.z4].
  pose proof (sin2_cos2 t) as H. unfold Rsqr in H.
  rewrite ?decimal_025, ?decimal_05.
  replace ((1 / 4 * (x * cos t - (z - 1 / 2) * sin t) -
            1 / 4 * (x' * cos t - (z' - 1 / 2) * sin t)) ^ 2 +
           (1 / 4 * y - 1 / 4 * y') ^ 2 +
           (1 / 4 * (x * sin t + (z - 1 / 2) * cos t) -
            1 / 4 * (x' * sin t + (z' - 1 / 2) * cos t)) ^ 2)%R
    with ((((x - x') ^ 2 + (z - z') ^ 2) * (sin t * sin t + cos t * cos t)
           + (y - y') ^ 2) / 16)%R by field.
  rewrite H. field.
Qed.

(** X9.  The model matrix of every generated instance is a similarity of
    ratio 1/4: it keeps the fourth coordinate of a point at 1 and divides
    squared distances by 16.  The origins of the instances lie in the plane
    y = 0 on the circle of radius 1/8 around the Y axis. *)
Theorem instance_models_are_similarities (size : nat) (w : World) :
  exists instances w',
    generate_instances size w = Ok instances w' /\
    forall i instance,
      instances !! i = Some instance ->
      (forall x y z, glm.w4 (glm.mul_vec (Model instance) (glm.mk_vec4 x y z 1)) = 1%R) /\
      (forall x y z x' y' z',
         sq_dist (glm.mul_vec (Model instance) (glm.mk_vec4 x y z 1))
                 (glm.mul_vec (Model instance) (glm.mk_vec4 x' y' z' 1)) =
         (sq_dist (glm.mk_vec4 x y z 1) (glm.mk_vec4 x' y' z' 1) / 16)%R) /\
      let origin := glm.mul_vec (Model instance) (glm.mk_vec4 0 0 0 1) in
      glm.y4 origin = 0%R /\
      (glm.x4 origin ^ 2 + glm.z4 origin ^ 2 = (1 / 8) ^ 2)%R.
Proof.
  destruct (generate_instances_ok size w) as (l & w' & Hgen & Hlen & Hall & _).
  exists l, w'. split; [exact Hgen|].
  intros i instance Hlook.
  assert (Hlt : (i < size)%nat).
  { rewrite <- Hlen. eapply lookup_lt_Some. exact Hlook. }
  destruct (Hall i Hlt) as (c & Hc & _).
  rewrite instance_scale_eq, instance_rotation_eq, instance_translation_eq in Hc.
  rewrite Hc in Hlook. injection Hlook as <-. cbn [Model].
  set (t := instance_theta size i).
  split; [intros x y z; rewrite model_on_point; reflexivity|].
  split; [intros x y z x' y' z'; apply model_shrinks_distances|].
  cbv zeta. rewrite model_on_point. cbn [glm.x4 glm.y4 glm.z4].
  split; [real_field|].
  pose proof (sin2_cos2 t) as H. unfold Rsqr in H.
  rewrite ?decimal_025, ?decimal_05.
  replace ((1 / 4 * (0 * cos t - (0 - 1 / 2) * sin t)) ^ 2 +
           (1 / 4 * (0 * sin t + (0 - 1 / 2) * cos t)) ^ 2)%R
    with ((sin t * sin t + cos t * cos t) / 64)%R by field.
  rewrite H. field.
Qed.

(** ** The camera: where the eye is *)

(** X10.  In every frame the eye is at the distance [cameraDistance] from
    the origin it looks at; that distance lies between 0 and 5 and the
    elevation between -pi/4 and pi/4. *)
Theorem camera_eye_distance (previous t1 theta : R) :
  let cam := camera previous t1 theta in
  glm.dot3 (eye cam) (eye cam) = (cameraDistance cam ^ 2)%R /\
  (0 <= cameraDistance cam <= 5)%R /\
  (- (PI / 4) <= phi cam <= PI / 4)%R.
Proof.
  intros cam. subst cam. cbn [camera eye cameraDistance phi].
  pose proof (COS_bound theta) as [Hlo Hhi].
  pose proof PI_RGT_0 as Hpi.
  split; [|split].
  - unfold glm.dot3. cbn [glm.x3 glm.y3 glm.z3].
    set (p := (cos theta * PI / 4)%R). set (d := (Rabs (cos theta) * 5)%R).
    pose proof (sin2_cos2 theta) as Ht. pose proof (sin2_cos2 p) as Hp.
    unfold Rsqr in Ht, Hp.
    replace (cos theta * cos p * d * (cos theta * cos p * d) +
             sin p * d * (sin p * d) +
             sin theta * cos p * d * (sin theta * cos p * d))%R
      with (d ^ 2 * (cos p * cos p * (sin theta * sin theta + cos theta * cos theta)
                     + sin p * sin p))%R by ring.
    rewrite Ht, Rmult_1_r, (Rplus_comm (cos p * cos p)), Hp. ring.
  - assert (Habs : (0 <= Rabs (cos theta) <= 1)%R).
    { split; [apply Rabs_pos|]. apply Rabs_le. lra. }
    lra.
  - split; nra.
Qed.

(** X11.  When the cosine of the angle a frame starts with is zero, the eye
    is at the origin, the very point the frame passes to [lookAt] as the
    centre to look at. *)
Theorem camera_eye_at_center (previous t1 theta : R) :
  cos theta = 0%R ->
  eye (camera previous t1 theta) = center /\
  cameraDistance (camera previous t1 theta) = 0%R.
Proof.
  intros Hcos. cbn [camera eye cameraDistance]. rewrite Hcos, Rabs_R0.
  split; [|ring]. unfold center. f_equal; ring.
Qed.

Lemma camera_eye_at_center_witness :
  eye (camera 0 1 (PI / 2)) = center /\
  cameraDistance (camera 0 1 (PI / 2)) = 0%R.
Proof. apply (camera_eye_at_center 0 1 (PI / 2)). apply cos_PI2. Defined.

(** ** The draw calls of a run *)

Lemma draw_calls_app (tr evs : list event) :
  draw_calls (tr ++ evs) = draw_calls tr ++ draw_calls evs.
Proof. unfold draw_calls. apply flat_map_app. Qed.

Lemma draw_calls_setup (env : Environment) (n : nat) :
  draw_calls (take n (setup_events env)) = [].
Proof. do 6 (destruct n as [|n]; [reflexivity|]). reflexivity. Qed.

Lemma draw_calls_prefix (w : World) (old new : image_ptr) :
  draw_calls (frame_prefix (validation_events w old new)) = [].
Proof.
  unfold frame_prefix, validation_events.
  destruct (depth_buffer_valid w old); reflexivity.
Qed.

Lemma camera_frames_length (clock : list R) :
  forall start theta, length (camera_frames start clock theta) = length clock.
Proof.
  induction clock as [|t1 clock IH]; intros start theta; [reflexivity|].
  cbn [camera_frames length]. rewrite IH. reflexivity.
Qed.

Lemma lookup_map_Some {A B : Type} (f : A -> B) (l : list A) (i : nat) (x : A) :
  l !! i = Some x -> map f l !! i = Some (f x).
Proof.
  revert i. induction l as [|a l IH]; intros [|i] H; try discriminate.
  - injection H as ->. reflexivity.
  - apply IH. exact H.
Qed.

(** The draw calls of the loop: one per completed frame, each with the
    uniforms of its frame, where the camera blocks are those of the clock
    readings of the completed frames, and with the locals' instance
    array. *)
Lemma main_loop_draws (envs : list FrameEnv) :
  forall st w,
    loop_invariant st w ->
    exists evs,
      trace (world_of (main_loop envs st w)) = trace w ++ evs /\
      let run := completed (assert_live st) (close_requested (win w)) envs in
      map call_uniform_data (draw_calls evs) =
      zip_with frame_uniforms run
        (camera_frames (t0 st) (map now run) (cameraTheta st)) /\
      Forall (fun call =>
                call_pipeline call = pipeline /\
                call_vertices call = vbufs (instances st) /\
                call_indices call = s_Indices /\
                index_count call = 3%N /\
                instance_count call = N.of_nat (length (instances st)) /\
                attachment_count (call_framebuffer call) = 2%N)
             (draw_calls evs).
Proof.
  induction envs as [|env envs IH]; intros st w Hinv.
  - cbn [main_loop]. cbv [bind Window_IsCloseRequested get_window ret].
    exists []. rewrite app_nil_r.
    destruct (close_requested (win w)); cbn [completed world_of];
      (split; [reflexivity|]); split; constructor.
  - cbn [main_loop]. cbv [bind Window_IsCloseRequested get_window ret].
    destruct (close_requested (win w)) eqn:Hclosed; cbn [completed].
    + exists []. rewrite app_nil_r.
      split; [reflexivity|]. split; constructor.
    + destruct (frame_runs env st w Hinv)
        as (p & w2 & d & _ & Hwin & _ & _ & _ & _ & Htrace & Hinv1 & Hframe).
      cbv zeta in Htrace, Hinv1, Hframe.
      pose proof Hinv as (Hcount & _).
      rewrite Hframe.
      destruct (perspective_passes _ _) eqn:Hpass.
      * set (st1 := frame_locals env st p) in *.
        set (suffix := frame_suffix st1 [backbuffer (polled env); Some d]).
        destruct (IH st1 (log w2 suffix) Hinv1) as (evs & Htrace' & Hunif & Hscene).
        cbv zeta in Hunif.
        change (win (log w2 suffix)) with (win w2) in Hunif.
        rewrite Hwin in Hunif.
        change (assert_live st1) with (assert_live st) in Hunif.
        exists (frame_prefix (validation_events (frame_start env w)
                                (attachment st 1) p) ++ suffix ++ evs).
        split.
        { rewrite Htrace'. cbn [log trace]. rewrite Htrace, <- !app_assoc.
          reflexivity. }
        cbv zeta. rewrite !draw_calls_app, draw_calls_prefix.
        change (draw_calls suffix) with [call st1].
        split.
        -- cbn [app map camera_frames zip_with]. f_equal. exact Hunif.
        -- constructor; [|exact Hscene].
           repeat split. exact Hcount.
      * exists (frame_prefix (validation_events (frame_start env w)
                                (attachment st 1) p)).
        split; [exact Htrace|].
        rewrite draw_calls_prefix. split; constructor.
Qed.

Lemma main_after_setup_draws (env : Environment) (insts : list Instance)
    (w1 : World) :
  draw_calls (trace (world_of (main_after_setup env insts w1))) =
  draw_calls (trace (world_of (main_loop (frames env) (initial_locals env insts) w1))).
Proof.
  unfold main_after_setup.
  destruct (main_loop _ _ _) as [[st' [|]] w2|e w2]; try reflexivity.
  cbn [world_of torn_down trace]. rewrite draw_calls_app. apply app_nil_r.
Qed.

Lemma main_draw_calls (env : Environment) (draws : nat -> Z) (created : window_t) :
  rasterizer_created env = true ->
  window_created env = Some created ->
  exists insts w1,
    generate_instances 6 (setup_world env draws created) = Ok insts w1 /\
    main env (boot draws) = main_after_setup env insts w1 /\
    length insts = 6%nat /\
    Forall (fun instance => Z.land (Color instance) 0xFF = 0xFF) insts /\
    map call_uniform_data
      (draw_calls (trace (world_of (main env (boot draws))))) =
    zip_with frame_uniforms (completed_frames env)
      (camera_frames (start_time env) (map now (completed_frames env)) 0) /\
    Forall (draws_scene insts)
      (draw_calls (trace (world_of (main env (boot draws))))).
Proof.
  intros Hrast Hwin.
  destruct (main_setup env draws created Hrast Hwin)
    as (insts & w1 & Hgen & Hlen & Hlow & Hw1 & _ & Ht1 & Hinv & _ & Hmain).
  destruct (main_loop_draws (frames env) (initial_locals env insts) w1 Hinv)
    as (evs & Htrace & Hunif & Hscene).
  cbv zeta in Hunif. rewrite Hw1 in Hunif.
  exists insts, w1.
  split; [exact Hgen|]. split; [exact Hmain|]. split; [exact Hlen|].
  split; [exact Hlow|].
  rewrite Hmain, main_after_setup_draws, Htrace, Ht1, draw_calls_app.
  change (draw_calls (setup_events env)) with (@nil indexed_render_call).
  cbn [app].
  split.
  - unfold completed_frames. rewrite Hrast, Hwin. exact Hunif.
  - eapply Forall_impl; [exact Hscene|].
    intros c (H1 & H2 & H3 & H4 & H5 & H6).
    cbn [initial_locals instances] in H2, H5. rewrite Hlen in H5.
    repeat split; assumption.
Qed.

(** X12.  A run of [main] issues one draw call per completed frame.  The
    view of each is the one from the eye of that frame's camera block,
    looking at the origin with +Y up, where the camera blocks are those of
    the clock readings of the completed frames, started at angle 0 and at
    the start time.  The projection of each is the perspective matrix for
    the aspect ratio of the size the window reports in that frame, provided
    that size has a width and a height. *)
Theorem main_draw_uniforms (env : Environment) (draws : nat -> Z) :
  let calls := draw_calls (trace (world_of (main env (boot draws)))) in
  let run := completed_frames env in
  let cams := camera_frames (start_time env) (map now run) 0 in
  length calls = length run /\
  forall (i : nat) (draw : indexed_render_call) (fenv : FrameEnv) (cam : Camera),
    calls !! i = Some draw -> run !! i = Some fenv -> cams !! i = Some cam ->
    let size := framebuffer_size (polled fenv) in
    View (call_uniform_data draw) =
    glm.lookAt (eye cam) (glm.mk_vec3 0 0 0) (glm.mk_vec3 0 1 0) /\
    (fst size <> 0%N -> snd size <> 0%N ->
     Projection (call_uniform_data draw) =
     glm.perspective_matrix (glm.radians 45)
       (IZR (Z.of_N (fst size)) / IZR (Z.of_N (snd size)))%R 0.1 100).
Proof.
  cbv zeta.
  assert (Heq : map call_uniform_data
                  (draw_calls (trace (world_of (main env (boot draws))))) =
                zip_with frame_uniforms (completed_frames env)
                  (camera_frames (start_time env)
                     (map now (completed_frames env)) 0)).
  { destruct (main_cases env draws)
      as [(n & _ & Hmain & Hnone & _)|(created & Hrast & Hwin)].
    - rewrite Hmain, Hnone. cbn [world_of trace].
      rewrite draw_calls_setup. reflexivity.
    - destruct (main_draw_calls env draws created Hrast Hwin)
        as (insts & w1 & _ & _ & _ & _ & Hunif & _).
      exact Hunif. }
  split.
  - rewrite <- (length_map call_uniform_data), Heq, length_zip_with,
      camera_frames_length, length_map.
    apply Nat.min_id.
  - intros i draw fenv cam Hdraw Hfenv Hcam.
    apply (lookup_map_Some call_uniform_data) in Hdraw.
    rewrite Heq, lookup_zip_with, Hfenv, Hcam in Hdraw.
    cbn in Hdraw. injection Hdraw as <-.
    split; [reflexivity|]. intros _ _. reflexivity.
Qed.

(** X13.  When the set-up succeeds, [main] generates its instances once, in
    the world the set-up leaves, and every draw call of the run draws that
    one array of six instances, every colour of which has 0xFF in its low
    byte, with the pipeline of the program and the three vertices and three
    indices of the triangle, into a framebuffer of two attachments; there is
    one such draw per completed frame. *)
Theorem main_draws_one_scene (env : Environment) (draws : nat -> Z)
    (created : window_t) :
  rasterizer_created env = true ->
  window_created env = Some created ->
  exists insts w1,
    generate_instances 6 (setup_world env draws created) = Ok insts w1 /\
    main env (boot draws) = main_after_setup env insts w1 /\
    length insts = 6%nat /\
    Forall (fun instance => Z.land (Color instance) 0xFF = 0xFF) insts /\
    Forall (draws_scene insts)
      (draw_calls (trace (world_of (main env (boot draws))))) /\
    length (draw_calls (trace (world_of (main env (boot draws))))) =
    frames_run env.
Proof.
  intros Hrast Hwin.
  destruct (main_draw_calls env draws created Hrast Hwin)
    as (insts & w1 & Hgen & Hmain & Hlen & Hlow & Hunif & Hscene).
  exists insts, w1.
  split; [exact Hgen|]. split; [exact Hmain|]. split; [exact Hlen|].
  split; [exact Hlow|]. split; [exact Hscene|].
  rewrite <- (length_map call_uniform_data), Hunif, length_zip_with,
    camera_frames_length, length_map.
  apply Nat.min_id.
Qed.

Lemma main_draws_one_scene_witness :
  exists insts w1,
    generate_instances 6
      (setup_world sample_environment (fun _ => 0) (sample_surface 1600 900)) =
    Ok insts w1 /\
    length insts = 6%nat /\
    Forall (draws_scene insts)
      (draw_calls (trace (world_of (main sample_environment (boot (fun _ => 0)))))).
Proof.
  destruct (main_draws_one_scene sample_environment (fun _ => 0)
              (sample_surface 1600 900))
    as (insts & w1 & Hgen & _ & Hlen & _ & Hscene & _); try reflexivity.
  exists insts, w1. repeat split; assumption.
Defined.

(** ** The earlier revision *)

Lemma revision0_frame_eq (env : revision0.FrameEnv) (st : revision0.Locals)
    (w : World) :
  attachment_count (revision0.fb st) = 1%N ->
  length (attachments (revision0.fb st)) = 1%nat ->
  let size := framebuffer_size (revision0.polled env) in
  let fb' := mk_framebuffer (fst size) (snd size) 1
               [match backbuffer (revision0.polled env) with
                | Some _ => backbuffer_ptr
                | None => nullptr
                end] in
  revision0.frame env st w =
  Ok (revision0.mk_Locals (revision0.rast st) (revision0.window st)
        (revision0.renderer st) fb'
        (if revision0.showDemo st then revision0.demo_open env else false))
     (mk_World (revision0.polled env) (images w) (next_image w) (rand_draws w)
        (rand_next w)
        (trace w ++ [window_poll_call; imgui_new_frame; imgui_render_frame;
                     framebuffer_clear_call fb' revision0.clearValues;
                     imgui_render_call fb'; window_swap_buffers_call])).
Proof.
  intros Hcount Hlen size fb'. unfold revision0.frame.
  cbv [bind Window_Poll window_poll emit Window_GetFramebufferSize get_window
       Window_GetBackbuffer ret win log ImGuiRenderer_Render Window_SwapBuffers].
  cbn [fb_width fb_height attachment_count attachments].
  rewrite ClearFramebuffer_eq. cbn [attachment_count]. rewrite Hcount.
  change (N.of_nat (length revision0.clearValues) =? 1)%N with true. cbv iota.
  destruct (attachments (revision0.fb st)) as [|a [|b l]]; try discriminate.
  cbn [log trace win images next_image rand_draws rand_next].
  subst fb' size. cbn [insert list_insert]. rewrite <- !app_assoc. reflexivity.
Qed.

Lemma revision0_main_loop_summary (envs : list revision0.FrameEnv) :
  forall st w,
    attachment_count (revision0.fb st) = 1%N ->
    length (attachments (revision0.fb st)) = 1%nat ->
    exists st' w' evs,
      revision0.main_loop envs st w =
      Ok (st', revision0.close_seen (close_requested (win w)) envs) w' /\
      trace w' = trace w ++ evs /\
      images w' = images w /\
      let run := revision0.executed (close_requested (win w)) envs in
      revision0.showDemo st' =
      revision0.showDemo st && forallb revision0.demo_open run /\
      Forall revision0.clear_is_single evs /\
      count is_poll evs = length run /\ count is_clear evs = length run /\
      count is_overlay evs = length run /\ count is_swap evs = length run /\
      count is_draw evs = 0%nat /\ count is_allocator_call evs = 0%nat.
Proof.
  induction envs as [|env envs IH]; intros st w Hcount Hlen.
  - cbn [revision0.main_loop].
    cbv [bind Window_IsCloseRequested get_window ret].
    cbn [revision0.close_seen revision0.executed].
    exists st, w, []. rewrite app_nil_r.
    destruct (close_requested (win w)); cbn [forallb length];
      rewrite andb_true_r; repeat split; constructor.
  - cbn [revision0.main_loop].
    cbv [bind Window_IsCloseRequested get_window ret].
    cbn [revision0.close_seen revision0.executed].
    destruct (close_requested (win w)) eqn:Hclosed.
    + exists st, w, []. rewrite app_nil_r. cbn [forallb length].
      rewrite andb_true_r. repeat split; constructor.
    + rewrite (revision0_frame_eq env st w Hcount Hlen). cbv zeta.
      match goal with
      | |- context [revision0.main_loop envs ?st1 ?w1] =>
          destruct (IH st1 w1 eq_refl eq_refl)
            as (st' & w' & evs & Hloop & Htrace & Himg & Hdemo & Hclears
                & Hc1 & Hc2 & Hc3 & Hc4 & Hc5 & Hc6)
      end.
      cbn [win trace images revision0.showDemo] in Hloop, Htrace, Himg, Hdemo,
        Hc1, Hc2, Hc3, Hc4, Hc5, Hc6.
      eexists st', w', (_ ++ evs).
      split; [exact Hloop|].
      split; [rewrite Htrace, <- app_assoc; reflexivity|].
      split; [exact Himg|].
      cbv zeta. cbn [forallb length]. rewrite !count_app.
      split.
      { rewrite Hdemo. destruct (revision0.showDemo st); [reflexivity|].
        cbn. reflexivity. }
      split.
      { apply Forall_app. split; [|exact Hclears].
        repeat first [apply List.Forall_nil | apply List.Forall_cons | exact I].
        repeat split. }
      rewrite Hc1, Hc2, Hc3, Hc4, Hc5, Hc6. repeat split.
Qed.

Lemma revision0_main_run (env : revision0.Environment) (draws : nat -> Z)
    (created : window_t) :
  revision0.rasterizer_created env = true ->
  revision0.window_created env = Some created ->
  let run := revision0.executed (close_requested created) (revision0.frames env) in
  exists st' w',
    revision0.main env (boot draws) =
    Ok (if revision0.close_seen (close_requested created) (revision0.frames env)
        then Some 0 else None, st') w' /\
    images w' = ∅ /\
    revision0.showDemo st' = forallb revision0.demo_open run /\
    Forall revision0.clear_is_single (trace w') /\
    count is_poll (trace w') = length run /\
    count is_clear (trace w') = length run /\
    count is_overlay (trace w') = length run /\
    count is_swap (trace w') = length run /\
    count is_draw (trace w') = 0%nat /\
    count is_allocator_call (trace w') = 0%nat.
Proof.
  intros Hrast Hwin run. unfold revision0.main.
  cbv [bind Rasterizer_Create rasterizer_create Window_Create window_create
       emit ret throw ImGuiRenderer_new Window_InitImGui].
  rewrite Hwin, Hrast. cbv beta iota.
  match goal with
  | |- context [revision0.main_loop (revision0.frames env) ?st0 ?w0] =>
      destruct (revision0_main_loop_summary (revision0.frames env) st0 w0
                  eq_refl eq_refl)
        as (st' & w' & evs & Hloop & Htrace & Himg & Hdemo & Hclears
            & Hc1 & Hc2 & Hc3 & Hc4 & Hc5 & Hc6);
      rewrite Hloop;
      cbn [win trace images log boot revision0.showDemo andb]
        in Htrace, Himg, Hdemo, Hc1, Hc2, Hc3, Hc4, Hc5, Hc6
  end.
  fold run in Hdemo, Hc1, Hc2, Hc3, Hc4.
  cbv beta iota. cbn [snd fst win log].
  assert (Hquiet : forall tr : list event,
             tr = trace w' \/
             tr = (((trace w' ++ [imgui_shutdown_renderer_call])
                    ++ [window_destroy_call]) ++ [imgui_destroy_context])
                  ++ [rasterizer_destroy_call] ->
             Forall revision0.clear_is_single tr /\
             count is_poll tr = length run /\ count is_clear tr = length run /\
             count is_overlay tr = length run /\ count is_swap tr = length run /\
             count is_draw tr = 0%nat /\ count is_allocator_call tr = 0%nat).
  { assert (Hbase : Forall revision0.clear_is_single (trace w') /\
             count is_poll (trace w') = length run /\
             count is_clear (trace w') = length run /\
             count is_overlay (trace w') = length run /\
             count is_swap (trace w') = length run /\
             count is_draw (trace w') = 0%nat /\
             count is_allocator_call (trace w') = 0%nat).
    { rewrite Htrace. rewrite !count_app, Hc1, Hc2, Hc3, Hc4, Hc5, Hc6.
      split; [|repeat split; cbn; lia].
      repeat (apply Forall_app; split); try exact Hclears; repeat constructor. }
    intros tr [->| ->]; [exact Hbase|].
    destruct Hbase as (Hb0 & Hb1 & Hb2 & Hb3 & Hb4 & Hb5 & Hb6).
    rewrite !count_app, Hb1, Hb2, Hb3, Hb4, Hb5, Hb6.
    split; [|repeat split; cbn; lia].
    repeat (apply Forall_app; split); try exact Hb0; repeat constructor. }
  destruct (revision0.close_seen (close_requested created) (revision0.frames env)).
  - cbv [ImGuiRenderer_destroy Window_destroy Rasterizer_destroy emit log].
    eexists st', _. split; [reflexivity|]. cbn [images trace].
    split; [exact Himg|]. split; [exact Hdemo|].
    apply Hquiet. right. reflexivity.
  - exists st', w'. split; [reflexivity|].
    split; [exact Himg|]. split; [exact Hdemo|].
    apply Hquiet. left. reflexivity.
Qed.

(** X14.  The earlier revision of [main], once its set-up has succeeded,
    cannot fail: every executed frame polls, clears, renders the overlay
    and swaps once, each clear passes the single clear value for a
    framebuffer of one attachment, and the run never draws and never calls
    the image allocator.  It returns 0 when the window asks to close. *)
Theorem revision0_main_overlay_only (env : revision0.Environment)
    (draws : nat -> Z) (created : window_t) :
  revision0.rasterizer_created env = true ->
  revision0.window_created env = Some created ->
  let run := revision0.executed (close_requested created) (revision0.frames env) in
  exists st' w',
    revision0.main env (boot draws) =
    Ok (if revision0.close_seen (close_requested created) (revision0.frames env)
        then Some 0 else None, st') w' /\
    images w' = ∅ /\
    Forall revision0.clear_is_single (trace w') /\
    count is_poll (trace w') = length run /\
    count is_clear (trace w') = length run /\
    count is_overlay (trace w') = length run /\
    count is_swap (trace w') = length run /\
    count is_draw (trace w') = 0%nat /\
    count is_allocator_call (trace w') = 0%nat.
Proof.
  intros Hrast Hwin run.
  destruct (revision0_main_run env draws created Hrast Hwin)
    as (st' & w' & Hmain & Himg & _ & Hrest).
  exists st', w'. split; [exact Hmain|]. split; [exact Himg|exact Hrest].
Qed.

(** X15.  In the earlier revision the flag [showDemo] is a latch: after a
    run it is still set exactly when every executed frame left the demo
    window open; once a frame has cleared it, later frames do not call
    [ShowDemoWindow] and the flag stays cleared. *)
Theorem revision0_showDemo_latch (env : revision0.Environment)
    (draws : nat -> Z) (created : window_t) :
  revision0.rasterizer_created env = true ->
  revision0.window_created env = Some created ->
  exists result st' w',
    revision0.main env (boot draws) = Ok (result, st') w' /\
    revision0.showDemo st' =
    forallb revision0.demo_open
      (revision0.executed (close_requested created) (revision0.frames env)).
Proof.
  intros Hrast Hwin.
  destruct (revision0_main_run env draws created Hrast Hwin)
    as (st' & w' & Hmain & _ & Hdemo & _).
  eexists _, st', w'. split; [exact Hmain|exact Hdemo].
Qed.

Lemma revision0_main_overlay_only_witness :
  exists st' w',
    revision0.main sample_overlay_environment (boot (fun _ => 0)) =
    Ok (Some 0, st') w' /\
    count is_clear (trace w') = 4%nat /\
    count is_draw (trace w') = 0%nat.
Proof.
  destruct (revision0_main_overlay_only sample_overlay_environment (fun _ => 0)
              (sample_surface 1600 900) eq_refl eq_refl)
    as (st' & w' & Hmain & _ & _ & _ & Hclear & _ & _ & Hdraw & _).
  exists st', w'. split; [exact Hmain|]. split; [exact Hclear|exact Hdraw].
Defined.

Lemma revision0_showDemo_latch_witness :
  exists result st' w',
    revision0.main sample_overlay_environment (boot (fun _ => 0)) =
    Ok (result, st') w' /\
    revision0.showDemo st' = false.
Proof.
  destruct (revision0_showDemo_latch sample_overlay_environment (fun _ => 0)
              (sample_surface 1600 900) eq_refl eq_refl)
    as (result & st' & w' & Hmain & Hdemo).
  exists result, st', w'. split; [exact Hmain|exact Hdemo].
Defined.

(** ** The contract of the validation *)

(** X16.  Called with a depth attachment that is null or live, the
    validation cannot fail and returns a live image of exactly the size the
    window reports.  It keeps the pointer precisely when the image already
    has that size; otherwise the pointer is a new one.  It allocates at
    most once, leaves the window and every other image alone, and keeps the
    allocator's serial numbers unused. *)
Theorem ValidateDepthBuffer_contract (window : Window) (p : image_ptr) (w : World) :
  depth_ok w p ->
  allocator_ok w ->
  exists p' w' img,
    ValidateDepthBuffer window p w = Ok p' w' /\
    win w' = win w /\
    deref w' p' = Some img /\
    (width img, height img) = framebuffer_size (win w) /\
    depth_ok w' p' /\
    allocator_ok w' /\
    (p' = p <-> depth_buffer_valid w p = true) /\
    (allocations (trace w') <= Datatypes.S (allocations (trace w)))%nat /\
    forall id, allocated_ptr id <> p -> allocated_ptr id <> p' ->
               images w' !! id = images w !! id.
Proof.
  intros Hp Hfresh.
  destruct (ValidateDepthBuffer_post window p w Hp)
    as (p' & w' & img & Hrun & Hwin & Hp' & Himg & Hw & Hh & Htrace).
  exists p', w', img.
  split; [exact Hrun|]. split; [exact Hwin|]. split; [exact Himg|].
  split; [rewrite Hw, Hh; destruct (framebuffer_size (win w)); reflexivity|].
  split; [exact Hp'|].
  rewrite (ValidateDepthBuffer_ok window p w Hp) in Hrun.
  destruct (depth_buffer_valid w p) eqn:Hvalid; injection Hrun as <- <-.
  - split; [exact Hfresh|]. split; [tauto|]. split; [lia|]. reflexivity.
  - split; [apply reallocated_allocator_ok; exact Hfresh|].
    split.
    { split; [|discriminate]. intros Heq. exfalso.
      destruct p as [| |id]; [discriminate|discriminate|].
      injection Heq as Heq. destruct Hp as [old Hold].
      apply Hfresh in Hold. lia. }
    split.
    { rewrite reallocated_trace, allocations_app.
      cbn [allocations List.filter is_allocation length]. lia. }
    intros id Hne Hne'. rewrite reallocated_images.
    rewrite lookup_insert_ne by congruence.
    destruct p as [| |old]; try reflexivity.
    apply lookup_delete_ne. congruence.
Qed.

Lemma ValidateDepthBuffer_contract_witness :
  exists p' w',
    ValidateDepthBuffer (mk_Window window_ptr) nullptr sample_world = Ok p' w' /\
    deref w' p' = Some (mk_image 1600 900 IMAGE_FORMAT_DEPTH).
Proof.
  destruct (ValidateDepthBuffer_contract (mk_Window window_ptr) nullptr sample_world)
    as (p' & w' & img & Hrun & _).
  - exact I.
  - intros id img H. cbn in H. rewrite lookup_empty in H. discriminate.
  - exists p', w'. split; [exact Hrun|].
    rewrite ValidateDepthBuffer_eq in Hrun. injection Hrun as <- <-.
    apply reallocated_deref_new.
Defined.
